(** * LLVM / Clang / LLD selftest workflows

    A shallow embedding of [meta/lib/oeqa/selftest/cases/clang.py]
    (class [LLVMClangLLDNativeTests]) and the properties of its two test
    workflows: step sequencing, failure propagation, timing and the
    lifetime of the QEMU instance and of the NFS export.

    The test methods are sequential Python code with three kinds of
    effects: calls to external collaborators (bitbake, the clock, the
    remote shell, the two context managers), log records, and exceptions.
    They are embedded in a state-and-exception monad over an explicit
    [World] of collaborator answers; every observable action is recorded
    in an event log that survives a raised exception. *)

From Stdlib Require Import String Ascii List ZArith QArith Qround Lia Bool.
From Stdlib Require Import DecimalString Lqa.
Import ListNotations.

Local Open Scope string_scope.
Local Open Scope Z_scope.

(** ** Python values, exceptions and events *)

(** The two exception classes the file raises itself.  [AssertionError]
    derives from [Exception], so an [except Exception] clause catches
    both.  Failures of the collaborators are some value of this type
    supplied by the world. *)
Inductive pyexn : Type :=
| AssertionError (msg : string)
| Exception (msg : string).

(** Arguments handed to the logger after the format string. *)
Inductive pyval : Type :=
| VStr (s : string)
| VInt (n : Z)
| VExn (e : pyexn).

Inductive loglevel : Type := INFO | ERROR.

(** The two context managers entered on the [ExitStack], with the
    arguments of the call that creates them. *)
Inductive ctxmgr : Type :=
| runqemu (image runqemuparams qemuparams : string)
| unfs_server (directory : string).

(** What the outside can observe of a run, in the order it happens. *)
Inductive event : Type :=
| Log (level : loglevel) (fmt : string) (args : list pyval)
| Bitbake (command : string)
| GetBBVar (name : string)
| Enter (cm : ctxmgr)          (* [__enter__] returned: resource acquired *)
| EnterFailed (cm : ctxmgr)    (* [__enter__] raised: nothing acquired   *)
| Exit (cm : ctxmgr)           (* [__exit__] called: resource released   *)
| QemuRun (command : string) (timeout : option Z).

(** The object yielded by [runqemu]; only [server_ip] is read. *)
Record qemu_handle : Type := { server_ip : string }.

(** ** The world: answers of the external collaborators

    None of these is defined in the file under study; each is an
    arbitrary function.  [clock n] is the value of the [n]-th call to
    [time.time()] during the test, in seconds; the float is taken as the
    rational it denotes, and nothing forces the readings to increase.
    [bitbake_raises c] is the exception [bitbake(c)] raises, if any.
    [repr] is Python's builtin on strings. *)
Record World : Type := {
  clock : nat -> Q;
  bitbake_raises : string -> option pyexn;
  get_bb_var_result : string -> pyexn + string;
  runqemu_enter : pyexn + qemu_handle;
  unfs_server_enter : pyexn + (Z * Z);
  qemu_run_result : string -> Z * string;
  repr : string -> string
}.

(** ** State and exception monad *)

Record state : Type := {
  clock_reads : nat;          (* number of [time.time()] calls so far *)
  exit_stack : list ctxmgr;   (* callbacks of the open [ExitStack], last in first *)
  log : list event            (* events so far, most recent first *)
}.

Definition init_state : state :=
  {| clock_reads := 0; exit_stack := []; log := [] |}.

(** Events in the order they happened. *)
Definition events (st : state) : list event := rev (log st).

Inductive result (A : Type) : Type :=
| Ok (a : A)
| Raise (e : pyexn).
Arguments Ok {A} a.
Arguments Raise {A} e.

Definition M (A : Type) : Type := state -> result A * state.

Definition ret {A} (a : A) : M A := fun st => (Ok a, st).

Definition bind {A B} (m : M A) (f : A -> M B) : M B :=
  fun st =>
    match m st with
    | (Ok a, st') => f a st'
    | (Raise e, st') => (Raise e, st')
    end.

Definition raise {A} (e : pyexn) : M A := fun st => (Raise e, st).

(** [try: m  except Exception as e: h e] *)
Definition try_except {A} (m : M A) (h : pyexn -> M A) : M A :=
  fun st =>
    match m st with
    | (Ok a, st') => (Ok a, st')
    | (Raise e, st') => h e st'
    end.

Declare Scope py_scope.
Delimit Scope py_scope with py.
Notation "x <- m ;; k" := (bind m (fun x => k))
  (at level 61, m at next level, right associativity) : py_scope.
Notation "' pat <- m ;; k" := (bind m (fun x => match x with pat => k end))
  (at level 61, pat pattern, m at next level, right associativity) : py_scope.
Notation "m ;; k" := (bind m (fun _ => k))
  (at level 61, right associativity) : py_scope.
Local Open Scope py_scope.

Definition emit (ev : event) : M unit :=
  fun st => (Ok tt, {| clock_reads := clock_reads st;
                       exit_stack := exit_stack st;
                       log := ev :: log st |}).

(** ** Builtins *)

(** [int(x)] on a float: truncation toward zero. *)
Definition py_int (x : Q) : Z := Z.quot (Qnum x) (Zpos (Qden x)).

(** [str(n)] / [{n}] in an f-string, for an integer. *)
Definition str_int (n : Z) : string := NilZero.string_of_int (Z.to_int n).

(** [s * n] *)
Fixpoint str_mul (s : string) (n : nat) : string :=
  match n with
  | O => EmptyString
  | S n' => s ++ str_mul s n'
  end.

(** The double-quote character of the shell commands. *)
Definition dq : string := String (ascii_of_nat 34) EmptyString.

Section Workflows.

Variable w : World.

(** ** Collaborators as monadic actions *)

Definition time_time : M Q :=
  fun st => (Ok (clock w (clock_reads st)),
             {| clock_reads := S (clock_reads st);
                exit_stack := exit_stack st;
                log := log st |}).

Definition logger_info (fmt : string) (args : list pyval) : M unit :=
  emit (Log INFO fmt args).

Definition logger_error (fmt : string) (args : list pyval) : M unit :=
  emit (Log ERROR fmt args).

Definition bitbake (command : string) : M unit :=
  emit (Bitbake command) ;;
  match bitbake_raises w command with
  | None => ret tt
  | Some e => raise e
  end.

Definition get_bb_var (name : string) : M string :=
  emit (GetBBVar name) ;;
  match get_bb_var_result w name with
  | inr v => ret v
  | inl e => raise e
  end.

Definition qemu_run (command : string) (timeout : option Z) : M (Z * string) :=
  emit (QemuRun command timeout) ;;
  ret (qemu_run_result w command).

(** ** [contextlib.ExitStack]

    [enter_context cm] calls [cm.__enter__()]; only when that returns is
    [cm.__exit__] pushed on the stack.  Leaving the [with] block, normally
    or by an exception, pops and calls every callback, last in first.  The
    [__exit__] of both context managers (generator based, defined with the
    collaborators) returns normally and does not swallow the exception. *)

Definition push_exit (cm : ctxmgr) : M unit :=
  fun st => (Ok tt, {| clock_reads := clock_reads st;
                       exit_stack := cm :: exit_stack st;
                       log := log st |}).

Definition enter_context {A} (cm : ctxmgr) (enter : pyexn + A) : M A :=
  match enter with
  | inr v => emit (Enter cm) ;; push_exit cm ;; ret v
  | inl e => emit (EnterFailed cm) ;; raise e
  end.

Fixpoint run_exit_callbacks (cbs : list ctxmgr) (l : list event) : list event :=
  match cbs with
  | [] => l
  | cm :: cbs' => run_exit_callbacks cbs' (Exit cm :: l)
  end.

(** [with contextlib.ExitStack() as s: body]: a fresh stack for the body,
    unwound on every way out; the enclosing stack is untouched. *)
Definition with_ExitStack {A} (body : M A) : M A :=
  fun st =>
    let inner := {| clock_reads := clock_reads st;
                    exit_stack := [];
                    log := log st |} in
    match body inner with
    | (r, st') =>
        (r, {| clock_reads := clock_reads st';
               exit_stack := exit_stack st;
               log := run_exit_callbacks (exit_stack st') (log st') |})
    end.

(** ** [unittest] assertions *)

Definition assertTrue (b : bool) (msg : string) : M unit :=
  if b then ret tt
  else raise (AssertionError ("False is not true : " ++ msg)).

Definition assertEqual (first second : Z) (msg : string) : M unit :=
  if first =? second then ret tt
  else raise (AssertionError
                (str_int first ++ " != " ++ str_int second ++ " : " ++ msg)).

(** ** The two timed steps

    Both have the shape [try: bitbake(..); passed = True / except
    Exception: log; passed = False / finally: duration = ..; log].  The
    [except] clause catches every exception of [pyexn] and its handler
    only logs, so control always reaches the [finally] block normally
    with [passed] set; the block is therefore written in sequence after
    the [try_except].  Interrupts outside the [Exception] hierarchy
    ([KeyboardInterrupt], [SystemExit]) are not failures of the operation
    and are not modelled. *)

Definition run_native_check_task (recipe task : string) : M Z :=
  logger_info "Running bitbake %s -c %s" [VStr recipe; VStr task] ;;
  start_time <- time_time ;;
  passed <- try_except
              (bitbake (recipe ++ " -c " ++ task) ;; ret true)
              (fun e =>
                 logger_error "bitbake %s -c %s FAILED: %s"
                              [VStr recipe; VStr task; VExn e] ;;
                 ret false) ;;
  (* finally *)
  now <- time_time ;;
  let duration := py_int (now - start_time) in
  let status := if passed : bool then "PASSED" else "FAILED" in
  logger_info "%s -c %s → %s (%d seconds)"
              [VStr recipe; VStr task; VStr status; VInt duration] ;;
  if negb passed then
    raise (AssertionError (recipe ++ " -c " ++ task ++ " failed — see log above"))
  else ret duration.

Definition run_target_build (recipe : string) : M Z :=
  logger_info "Running bitbake %s" [VStr recipe] ;;
  start_time <- time_time ;;
  passed <- try_except
              (bitbake recipe ;; ret true)
              (fun e =>
                 logger_error "bitbake %s FAILED: %s" [VStr recipe; VExn e] ;;
                 ret false) ;;
  (* finally *)
  now <- time_time ;;
  let duration := py_int (now - start_time) in
  let status := if passed : bool then "PASSED" else "FAILED" in
  logger_info "%s → %s (%d seconds)"
              [VStr recipe; VStr status; VInt duration] ;;
  if negb passed then
    raise (AssertionError (recipe ++ " build failed — see log above"))
  else ret duration.

(** ** Native lit suites *)

Definition test_native_llvm_clang_lld_lit_suites : M unit :=
  logger_info (str_mul "=" 70) [] ;;
  logger_info "STARTING LLVM + CLANG + LLD NATIVE LIT TEST SUITES" [] ;;
  logger_info (str_mul "=" 70) [] ;;

  total_start <- time_time ;;
  llvm_duration <- run_native_check_task "llvm-native" "check_llvm" ;;
  clang_duration <- run_native_check_task "clang-native" "check_clang" ;;
  lld_duration <- run_native_check_task "lld-native" "check_lld" ;;
  now <- time_time ;;
  let total_duration := py_int (now - total_start) in

  logger_info (str_mul "=" 70) [] ;;
  logger_info "ALL LIT TEST SUITES COMPLETED SUCCESSFULLY" [] ;;
  logger_info "  llvm-native  -c check_llvm  : %d s" [VInt llvm_duration] ;;
  logger_info "  clang-native -c check_clang : %d s" [VInt clang_duration] ;;
  logger_info "  lld-native   -c check_lld   : %d s" [VInt lld_duration] ;;
  logger_info "  TOTAL EXECUTION TIME        : %d s" [VInt total_duration] ;;
  logger_info (str_mul "=" 70) [] ;;

  assertTrue true "All LLVM/Clang/LLD native lit suites passed".

(** ** Target builds, QEMU, NFS mount and lit on the target *)

Definition test_target_llvm_clang_lld_builds : M unit :=
  logger_info (str_mul "=" 70) [] ;;
  logger_info "STARTING TARGET LLVM/CLANG/LLD BUILDS" [] ;;
  logger_info (str_mul "=" 70) [] ;;

  total_start <- time_time ;;
  llvm_duration <- run_target_build "llvm" ;;
  clang_duration <- run_target_build "clang" ;;
  lld_duration <- run_target_build "lld" ;;
  cim_duration <- run_target_build "core-image-minimal" ;;
  now <- time_time ;;
  let total_duration := py_int (now - total_start) in

  logger_info (str_mul "=" 70) [] ;;
  logger_info "ALL TARGET BUILDS COMPLETED SUCCESSFULLY" [] ;;
  logger_info "  llvm  build : %d s" [VInt llvm_duration] ;;
  logger_info "  clang build : %d s" [VInt clang_duration] ;;
  logger_info "  lld   build : %d s" [VInt lld_duration] ;;
  logger_info "  core-image-minimal build : %d s" [VInt cim_duration] ;;
  logger_info "  TOTAL BUILD TIME : %d s" [VInt total_duration] ;;
  logger_info (str_mul "=" 70) [] ;;

  (* === Start QEMU + NFS setup === *)
  with_ExitStack (
    tmpdir <- get_bb_var "TMPDIR" ;;
    qemu <- enter_context (runqemu "core-image-minimal" "nographic" "-m 8192")
                          (runqemu_enter w) ;;
    '(nfsport, mountport) <- enter_context (unfs_server tmpdir)
                                           (unfs_server_enter w) ;;

    (* Validate SSH *)
    '(status, _) <- qemu_run "uname" None ;;
    assertEqual status 0 "QEMU SSH check failed" ;;

    (* Setup NFS mount on target *)
    '(status, _) <- qemu_run ("mkdir -p " ++ dq ++ tmpdir ++ dq) None ;;
    (if negb (status =? 0) then
       raise (Exception "Failed to setup NFS mount directory on target")
     else ret tt) ;;

    let mountcmd :=
      "mount -o noac,nfsvers=3,port=" ++ str_int nfsport
        ++ ",udp,mountport=" ++ str_int mountport ++ " "
        ++ dq ++ server_ip qemu ++ ":" ++ tmpdir ++ dq ++ " "
        ++ dq ++ tmpdir ++ dq in
    '(status, output) <- qemu_run mountcmd None ;;
    (if negb (status =? 0) then
       raise (Exception ("Failed to setup NFS mount on target ("
                           ++ repr w output ++ ")"))
     else ret tt) ;;

    logger_info "Successfully mounted" [] ;;

    (* Run llvm-lit on target *)
    let build_dir_lld := tmpdir ++ "/work/x86-64-v3-oe-linux/lld/21.1.4/build" in
    let lit_bin_lld := build_dir_lld ++ "/bin/llvm-lit" in
    let test_dir_lld := build_dir_lld ++ "/test" in
    let host_result_lld := build_dir_lld ++ "/lld-target-results.log" in

    let build_dir_llvm := tmpdir ++ "/work/x86-64-v3-oe-linux/llvm/21.1.4/build" in
    let lit_bin_llvm := build_dir_llvm ++ "/bin/llvm-lit" in
    let test_dir_llvm := build_dir_llvm ++ "/test" in
    let host_result_llvm := build_dir_llvm ++ "/llvm-target-results.log" in

    let build_dir_clang := tmpdir ++ "/work/x86-64-v3-oe-linux/clang/21.1.4/build" in
    let lit_bin_clang := build_dir_clang ++ "/bin/llvm-lit" in
    let test_dir_clang := build_dir_clang ++ "/test" in
    let host_result_clang := build_dir_clang ++ "/clang-target-results.log" in

    let guest_result_lld := "/tmp/lld-target-results.json" in
    let guest_result_llvm := "/tmp/llvm-target-results.json" in
    let guest_result_clang := "/tmp/clang-target-results.json" in

    logger_info "Running llvm-lit directly on target" [] ;;
    logger_info ("  LIT BIN  : " ++ lit_bin_lld) [] ;;
    logger_info ("  TESTDIR  : " ++ test_dir_lld) [] ;;
    logger_info ("  LOGFILE  : " ++ guest_result_lld) [] ;;

    let cmd := "cd " ++ build_dir_lld
                 ++ "/bin && ./llvm-lit -v --filter-out 'COFF|MachO|MinGW' -j1 ../test -o "
                 ++ guest_result_lld in
    '(status, output) <- qemu_run cmd None ;;
    (if negb (status =? 0) then
       logger_error "llvm-lit tests FAILED on target for lld" [] ;;
       logger_error output [] ;;
       raise (AssertionError "llvm-lit failed on target for lld — see log above")
     else ret tt) ;;

    '(status, _) <- qemu_run ("cp " ++ guest_result_lld ++ " " ++ host_result_lld) None ;;
    (if negb (status =? 0) then
       raise (AssertionError "Failed to copy LLD lit results back to host")
     else ret tt) ;;

    logger_info ("  LIT BIN  : " ++ lit_bin_llvm) [] ;;
    logger_info ("  TESTDIR  : " ++ test_dir_llvm) [] ;;
    logger_info ("  LOGFILE  : " ++ guest_result_llvm) [] ;;

    let cmd := "cd " ++ build_dir_llvm
                 ++ "/bin && ./llvm-lit --filter-out 'COFF|MachO|MinGW' -j1 ../test -o "
                 ++ guest_result_llvm in
    '(status, output) <- qemu_run cmd None ;;
    (if negb (status =? 0) then
       logger_error "llvm-lit tests FAILED on target for llvm" [] ;;
       logger_error output [] ;;
       raise (AssertionError "llvm-lit failed on target for llvm — see log above")
     else ret tt) ;;

    '(status, _) <- qemu_run ("cp " ++ guest_result_llvm ++ " " ++ host_result_llvm) None ;;
    (if negb (status =? 0) then
       raise (AssertionError "Failed to copy llvm lit results back to host")
     else ret tt) ;;

    logger_info ("  LIT BIN  : " ++ lit_bin_clang) [] ;;
    logger_info ("  TESTDIR  : " ++ test_dir_clang) [] ;;
    logger_info ("  LOGFILE  : " ++ guest_result_clang) [] ;;

    let cmd := "cd " ++ build_dir_clang ++ "/bin && ./llvm-lit -j2 ../test -o "
                 ++ guest_result_clang in
    '(status, output) <- qemu_run cmd (Some 1000) ;;
    (if negb (status =? 0) then
       logger_error "llvm-lit tests FAILED on target for clang" [] ;;
       logger_error output [] ;;
       raise (AssertionError "llvm-lit failed on target for clang — see log above")
     else ret tt) ;;

    '(status, _) <- qemu_run ("cp " ++ guest_result_clang ++ " " ++ host_result_clang) None ;;
    (if negb (status =? 0) then
       raise (AssertionError "Failed to copy LLVM lit results back to host")
     else ret tt) ;;

    logger_info "llvm-lit tests completed successfully on target" [] ;;
    logger_info output []
  ) ;;

  assertTrue true "All target LLVM/Clang/LLD builds and NFS tests passed".

End Workflows.

(** * Vocabulary of the properties *)

(** A complete run of each test method. *)
Definition run_native (w : World) : result unit * state :=
  test_native_llvm_clang_lld_lit_suites w init_state.

Definition run_target (w : World) : result unit * state :=
  test_target_llvm_clang_lld_builds w init_state.

(** ** Timed steps *)

(** The duration a timed step started in state [st] computes: its first
    clock reading is number [clock_reads st], its second the next one. *)
Definition elapsed (w : World) (st : state) : Z :=
  py_int (clock w (S (clock_reads st)) - clock w (clock_reads st)).

(** The state a timed step leaves: two clock readings consumed, its
    events (most recent first) added. *)
Definition after_step (st : state) (evs : list event) : state :=
  {| clock_reads := S (S (clock_reads st));
     exit_stack := exit_stack st;
     log := evs ++ log st |}.

(** The clock is never set back between two consecutive readings. *)
Definition clock_monotone (w : World) : Prop :=
  forall n : nat, (clock w n <= clock w (S n))%Q.

(** ** Reading the event log *)

(** The bitbake commands that were invoked, in order. *)
Definition bitbake_calls (evs : list event) : list string :=
  flat_map (fun ev => match ev with Bitbake c => [c] | _ => [] end) evs.

(** The remote commands that were issued, in order. *)
Definition remote_commands (evs : list event) : list string :=
  flat_map (fun ev => match ev with QemuRun c _ => [c] | _ => [] end) evs.

(** The context managers entered, and those exited, in order. *)
Definition entered (evs : list event) : list ctxmgr :=
  flat_map (fun ev => match ev with Enter cm => [cm] | _ => [] end) evs.

Definition exited (evs : list event) : list ctxmgr :=
  flat_map (fun ev => match ev with Exit cm => [cm] | _ => [] end) evs.

(** What a properly closed scope looks like: after the events [pre] of
    the run, which contain no exit, every context manager entered in [pre]
    is exited once, last entered first, and nothing follows. *)
Definition scope_closed (evs : list event) : Prop :=
  exists pre,
    evs = (pre ++ map Exit (rev (entered pre)))%list
    /\ exited pre = [].

(** Events that belong to the phases after the target builds: variable
    lookup, resource setup and teardown, remote commands. *)
Definition scope_event (ev : event) : bool :=
  match ev with
  | GetBBVar _ | Enter _ | EnterFailed _ | Exit _ | QemuRun _ _ => true
  | Log _ _ _ | Bitbake _ => false
  end.

(** The integers logged at level INFO with format [fmt] and a single
    argument: the lines of a timing summary. *)
Definition reported (fmt : string) (evs : list event) : list Z :=
  flat_map (fun ev =>
              match ev with
              | Log INFO f [VInt n] => if String.eqb f fmt then [n] else []
              | _ => []
              end) evs.

(** ** Steps and commands, as the source spells them *)

Definition native_steps : list (string * string) :=
  [("llvm-native", "check_llvm");
   ("clang-native", "check_clang");
   ("lld-native", "check_lld")].

Definition native_command (step : string * string) : string :=
  fst step ++ " -c " ++ snd step.

Definition target_builds : list string :=
  ["llvm"; "clang"; "lld"; "core-image-minimal"].

Definition the_vm : ctxmgr := runqemu "core-image-minimal" "nographic" "-m 8192".

Definition mkdir_command (tmpdir : string) : string :=
  "mkdir -p " ++ dq ++ tmpdir ++ dq.

Definition mount_command (tmpdir : string) (qemu : qemu_handle)
           (nfsport mountport : Z) : string :=
  "mount -o noac,nfsvers=3,port=" ++ str_int nfsport
    ++ ",udp,mountport=" ++ str_int mountport ++ " "
    ++ dq ++ server_ip qemu ++ ":" ++ tmpdir ++ dq ++ " "
    ++ dq ++ tmpdir ++ dq.

(** The three components under test on the target, in source order. *)
Inductive component : Type := lld | llvm | clang.

Definition lit_command (c : component) (tmpdir : string) : string :=
  match c with
  | lld =>
      "cd " ++ (tmpdir ++ "/work/x86-64-v3-oe-linux/lld/21.1.4/build")
        ++ "/bin && ./llvm-lit -v --filter-out 'COFF|MachO|MinGW' -j1 ../test -o "
        ++ "/tmp/lld-target-results.json"
  | llvm =>
      "cd " ++ (tmpdir ++ "/work/x86-64-v3-oe-linux/llvm/21.1.4/build")
        ++ "/bin && ./llvm-lit --filter-out 'COFF|MachO|MinGW' -j1 ../test -o "
        ++ "/tmp/llvm-target-results.json"
  | clang =>
      "cd " ++ (tmpdir ++ "/work/x86-64-v3-oe-linux/clang/21.1.4/build")
        ++ "/bin && ./llvm-lit -j2 ../test -o "
        ++ "/tmp/clang-target-results.json"
  end.

Definition copy_command (c : component) (tmpdir : string) : string :=
  match c with
  | lld =>
      "cp " ++ "/tmp/lld-target-results.json" ++ " "
        ++ (tmpdir ++ "/work/x86-64-v3-oe-linux/lld/21.1.4/build")
        ++ "/lld-target-results.log"
  | llvm =>
      "cp " ++ "/tmp/llvm-target-results.json" ++ " "
        ++ (tmpdir ++ "/work/x86-64-v3-oe-linux/llvm/21.1.4/build")
        ++ "/llvm-target-results.log"
  | clang =>
      "cp " ++ "/tmp/clang-target-results.json" ++ " "
        ++ (tmpdir ++ "/work/x86-64-v3-oe-linux/clang/21.1.4/build")
        ++ "/clang-target-results.log"
  end.

Definition component_name (c : component) : string :=
  match c with
  | lld => "lld"
  | llvm => "llvm"
  | clang => "clang"
  end.

(** The failure raised when the lit run of a component exits non-zero. *)
Definition lit_failure (c : component) : pyexn :=
  AssertionError ("llvm-lit failed on target for " ++ component_name c
                    ++ " — see log above").

Definition remote_status (w : World) (command : string) : Z :=
  fst (qemu_run_result w command).

(** The four target builds pass. *)
Definition builds_pass (w : World) : Prop :=
  forall recipe, In recipe target_builds -> bitbake_raises w recipe = None.

(** Builds pass, TMPDIR resolves, both resources are acquired, the
    reachability check and the two mount commands exit zero. *)
Definition mounted (w : World) (tmpdir : string) (qemu : qemu_handle)
           (nfsport mountport : Z) : Prop :=
  builds_pass w
  /\ get_bb_var_result w "TMPDIR" = inr tmpdir
  /\ runqemu_enter w = inr qemu
  /\ unfs_server_enter w = inr (nfsport, mountport)
  /\ remote_status w "uname" = 0
  /\ remote_status w (mkdir_command tmpdir) = 0
  /\ remote_status w (mount_command tmpdir qemu nfsport mountport) = 0.

(** The three native check tasks pass. *)
Definition native_steps_pass (w : World) : Prop :=
  forall step, In step native_steps ->
               bitbake_raises w (native_command step) = None.

(** ** Does a failure message name a component?

    [mentions name msg]: [name] occurs in [msg], letter case ignored. *)
Definition lower_ascii (ch : ascii) : ascii :=
  let n := nat_of_ascii ch in
  if ((65 <=? n) && (n <=? 90))%nat then ascii_of_nat (n + 32) else ch.

Fixpoint lower (s : string) : string :=
  match s with
  | EmptyString => EmptyString
  | String ch s' => String (lower_ascii ch) (lower s')
  end.

Definition mentions (name msg : string) : bool :=
  match index 0 (lower name) (lower msg) with
  | Some _ => true
  | None => false
  end.

(** ** Sample worlds *)

(** Every collaborator succeeds; the clock advances one second per
    reading. *)
Definition calm_world : World :=
  {| clock := fun n => inject_Z (Z.of_nat n);
     bitbake_raises := fun _ => None;
     get_bb_var_result := fun _ => inr "/build/tmp";
     runqemu_enter := inr {| server_ip := "192.168.7.2" |};
     unfs_server_enter := inr (3049, 3048);
     qemu_run_result := fun _ => (0, "ok");
     repr := fun s => "'" ++ s ++ "'" |}.

(** The clock returns the given readings, then stays at the last one. *)
Definition with_clock (readings : list Q) (w : World) : World :=
  {| clock := fun n => nth n readings (last readings 0%Q);
     bitbake_raises := bitbake_raises w;
     get_bb_var_result := get_bb_var_result w;
     runqemu_enter := runqemu_enter w;
     unfs_server_enter := unfs_server_enter w;
     qemu_run_result := qemu_run_result w;
     repr := repr w |}.

Definition with_bitbake_failure (command : string) (e : pyexn) (w : World) : World :=
  {| clock := clock w;
     bitbake_raises := fun c => if String.eqb c command then Some e
                                else bitbake_raises w c;
     get_bb_var_result := get_bb_var_result w;
     runqemu_enter := runqemu_enter w;
     unfs_server_enter := unfs_server_enter w;
     qemu_run_result := qemu_run_result w;
     repr := repr w |}.

Definition with_remote_answer (command : string) (answer : Z * string)
           (w : World) : World :=
  {| clock := clock w;
     bitbake_raises := bitbake_raises w;
     get_bb_var_result := get_bb_var_result w;
     runqemu_enter := runqemu_enter w;
     unfs_server_enter := unfs_server_enter w;
     qemu_run_result := fun c => if String.eqb c command then answer
                                 else qemu_run_result w c;
     repr := repr w |}.

Definition bitbake_error : pyexn :=
  AssertionError "Command 'bitbake' returned non-zero exit status 1".

(** Every command succeeds except the copy of the clang results. *)
Definition clang_copy_fails : World :=
  with_remote_answer (copy_command clang "/build/tmp")
                     (1, "cp: cannot create regular file") calm_world.

(** Every command succeeds except the copy of the lld results. *)
Definition lld_copy_fails : World :=
  with_remote_answer (copy_command lld "/build/tmp")
                     (1, "cp: cannot create regular file") calm_world.

(** Readings half a second apart. *)
Definition half_second_clock : World :=
  {| clock := fun n => (Z.of_nat n # 2)%Q;
     bitbake_raises := bitbake_raises calm_world;
     get_bb_var_result := get_bb_var_result calm_world;
     runqemu_enter := runqemu_enter calm_world;
     unfs_server_enter := unfs_server_enter calm_world;
     qemu_run_result := qemu_run_result calm_world;
     repr := repr calm_world |}.

(** The three native steps take exactly 10, 20 and 30 seconds, with 0.4
    seconds between a step and the next reading around it. *)
Definition ten_twenty_thirty : World :=
  with_clock [0; 2 # 5; 52 # 5; 54 # 5; 154 # 5; 156 # 5; 306 # 5; 308 # 5]%Q
             calm_world.

(** ** Observable behaviour of the target run

    The events of a run other than INFO records: bitbake invocations,
    the variable lookup, resource entries and exits, remote commands and
    ERROR records. *)
Definition observable (ev : event) : bool :=
  match ev with
  | Log INFO _ _ => false
  | _ => true
  end.

Definition observed (run : result unit * state) : result unit * list event :=
  (fst run, filter observable (events (snd run))).

(** The ERROR records of a log, in order. *)
Definition error_records (evs : list event) : list event :=
  filter (fun ev => match ev with Log ERROR _ _ => true | _ => false end) evs.

Definition remote_output (w : World) (command : string) : string :=
  snd (qemu_run_result w command).

(** The per-component parameters of the three blocks of the source. *)
Definition components : list component := [lld; llvm; clang].

Definition lit_timeout (c : component) : option Z :=
  match c with
  | clang => Some 1000
  | lld | llvm => None
  end.

Definition copy_failure (c : component) : pyexn :=
  AssertionError
    match c with
    | lld => "Failed to copy LLD lit results back to host"
    | llvm => "Failed to copy llvm lit results back to host"
    | clang => "Failed to copy LLVM lit results back to host"
    end.

(** The components tested before [c]. *)
Definition tested_before (c : component) : list component :=
  match c with
  | lld => []
  | llvm => [lld]
  | clang => [lld; llvm]
  end.

(** The target workflow written as loops over its data: the builds over
    [target_builds], the tests over [components].  Each function gives the
    outcome and the observable events of its phase. *)
Fixpoint test_components (w : World) (tmpdir : string) (cs : list component)
  : result unit * list event :=
  match cs with
  | [] => (Ok tt, [])
  | c :: rest =>
      if remote_status w (lit_command c tmpdir) =? 0 then
        if remote_status w (copy_command c tmpdir) =? 0 then
          let (r, evs) := test_components w tmpdir rest in
          (r, QemuRun (lit_command c tmpdir) (lit_timeout c)
                :: QemuRun (copy_command c tmpdir) None :: evs)
        else
          (Raise (copy_failure c),
           [QemuRun (lit_command c tmpdir) (lit_timeout c);
            QemuRun (copy_command c tmpdir) None])
      else
        (Raise (lit_failure c),
         [QemuRun (lit_command c tmpdir) (lit_timeout c);
          Log ERROR ("llvm-lit tests FAILED on target for " ++ component_name c) [];
          Log ERROR (remote_output w (lit_command c tmpdir)) []])
  end.

Definition mount_and_test (w : World) (tmpdir : string) (qemu : qemu_handle)
           (nfsport mountport : Z) : result unit * list event :=
  if remote_status w "uname" =? 0 then
    if remote_status w (mkdir_command tmpdir) =? 0 then
      if remote_status w (mount_command tmpdir qemu nfsport mountport) =? 0 then
        let (r, evs) := test_components w tmpdir components in
        (r, QemuRun "uname" None
              :: QemuRun (mkdir_command tmpdir) None
              :: QemuRun (mount_command tmpdir qemu nfsport mountport) None
              :: evs)
      else
        (Raise (Exception
                  ("Failed to setup NFS mount on target ("
                     ++ repr w (remote_output
                                  w (mount_command tmpdir qemu nfsport mountport))
                     ++ ")")),
         [QemuRun "uname" None;
          QemuRun (mkdir_command tmpdir) None;
          QemuRun (mount_command tmpdir qemu nfsport mountport) None])
    else
      (Raise (Exception "Failed to setup NFS mount directory on target"),
       [QemuRun "uname" None; QemuRun (mkdir_command tmpdir) None])
  else
    (Raise (AssertionError
              (str_int (remote_status w "uname")
                 ++ " != " ++ str_int 0 ++ " : " ++ "QEMU SSH check failed")),
     [QemuRun "uname" None]).

Definition resource_scope (w : World) : result unit * list event :=
  match get_bb_var_result w "TMPDIR" with
  | inl e => (Raise e, [GetBBVar "TMPDIR"])
  | inr tmpdir =>
      match runqemu_enter w with
      | inl e => (Raise e, [GetBBVar "TMPDIR"; EnterFailed the_vm])
      | inr qemu =>
          match unfs_server_enter w with
          | inl e =>
              (Raise e,
               [GetBBVar "TMPDIR"; Enter the_vm;
                EnterFailed (unfs_server tmpdir); Exit the_vm])
          | inr (nfsport, mountport) =>
              let (r, evs) := mount_and_test w tmpdir qemu nfsport mountport in
              (r, GetBBVar "TMPDIR" :: Enter the_vm
                    :: Enter (unfs_server tmpdir)
                    :: (evs ++ [Exit (unfs_server tmpdir); Exit the_vm])%list)
          end
      end
  end.

Fixpoint build_all (w : World) (recipes : list string)
         (next : result unit * list event) : result unit * list event :=
  match recipes with
  | [] => next
  | recipe :: rest =>
      match bitbake_raises w recipe with
      | Some e =>
          (Raise (AssertionError (recipe ++ " build failed — see log above")),
           [Bitbake recipe;
            Log ERROR "bitbake %s FAILED: %s" [VStr recipe; VExn e]])
      | None =>
          let (r, evs) := build_all w rest next in
          (r, Bitbake recipe :: evs)
      end
  end.

Definition target_outcome (w : World) : result unit * list event :=
  build_all w target_builds (resource_scope w).

(** Every remote command of a log is issued while two resources are
    held: [held] counts the entries not yet exited. *)
Fixpoint remote_only_while_held (held : nat) (evs : list event) : bool :=
  match evs with
  | [] => true
  | Enter _ :: rest => remote_only_while_held (S held) rest
  | Exit _ :: rest => remote_only_while_held (pred held) rest
  | QemuRun _ _ :: rest =>
      Nat.eqb held 2 && remote_only_while_held held rest
  | _ :: rest => remote_only_while_held held rest
  end.

(** No bitbake invocation follows an event of the later phases. *)
Definition is_bitbake (ev : event) : bool :=
  match ev with
  | Bitbake _ => true
  | _ => false
  end.

Fixpoint builds_come_first (evs : list event) : bool :=
  match evs with
  | [] => true
  | ev :: rest =>
      if scope_event ev then negb (existsb is_bitbake rest)
      else builds_come_first rest
  end.

(** All six test commands of the three components exit zero. *)
Definition tests_pass (w : World) (tmpdir : string) : Prop :=
  forall c : component,
    remote_status w (lit_command c tmpdir) = 0
    /\ remote_status w (copy_command c tmpdir) = 0.

(** The components before [c] were tested and copied successfully. *)
Definition reaches (w : World) (tmpdir : string) (c : component) : Prop :=
  forall c', In c' (tested_before c) ->
             remote_status w (lit_command c' tmpdir) = 0
             /\ remote_status w (copy_command c' tmpdir) = 0.

(** A world in which only the lit run of llvm fails. *)
Definition llvm_lit_fails : World :=
  with_remote_answer (lit_command llvm "/build/tmp")
                     (1, "FAIL: LLVM :: CodeGen/X86/foo.ll") calm_world.

(** Worlds in which a resource acquisition fails. *)
Definition no_export : World :=
  {| clock := clock calm_world;
     bitbake_raises := bitbake_raises calm_world;
     get_bb_var_result := get_bb_var_result calm_world;
     runqemu_enter := runqemu_enter calm_world;
     unfs_server_enter := inl (Exception "unfsd failed to start");
     qemu_run_result := qemu_run_result calm_world;
     repr := repr calm_world |}.

(** The clock is set back by three tenths of a second during the first
    native step, and advances by a second per reading otherwise. *)
Definition set_back_clock : World :=
  with_clock [0; 1; 7 # 10; 2; 3; 4; 5; 6]%Q calm_world.


(** * Symbolic execution of a run *)

Ltac exec :=
  cbv beta iota zeta delta
    [run_native run_target
     test_native_llvm_clang_lld_lit_suites test_target_llvm_clang_lld_builds
     run_native_check_task run_target_build
     with_ExitStack enter_context push_exit run_exit_callbacks
     get_bb_var qemu_run assertTrue assertEqual
     bind try_except bitbake logger_info logger_error emit time_time ret raise
     init_state clock_reads exit_stack log negb].

Ltac exec_in H :=
  cbv beta iota zeta delta
    [run_native run_target
     test_native_llvm_clang_lld_lit_suites test_target_llvm_clang_lld_builds
     run_native_check_task run_target_build
     with_ExitStack enter_context push_exit run_exit_callbacks
     get_bb_var qemu_run assertTrue assertEqual
     bind try_except bitbake logger_info logger_error emit time_time ret raise
     init_state clock_reads exit_stack log negb] in H.

Ltac bitbake_answers :=
  repeat match goal with
         | H : bitbake_raises _ _ = _ |- _ => rewrite H; exec
         end.

(** * Properties *)

(** ** Timed steps *)

Lemma run_native_check_task_passed w recipe task st :
  bitbake_raises w (recipe ++ " -c " ++ task) = None ->
  run_native_check_task w recipe task st =
    (Ok (elapsed w st),
     after_step st
       [Log INFO "%s -c %s → %s (%d seconds)"
            [VStr recipe; VStr task; VStr "PASSED"; VInt (elapsed w st)];
        Bitbake (recipe ++ " -c " ++ task);
        Log INFO "Running bitbake %s -c %s" [VStr recipe; VStr task]]).
Proof.
  intros H. exec. rewrite H. reflexivity.
Qed.

Lemma run_native_check_task_failed w recipe task st e :
  bitbake_raises w (recipe ++ " -c " ++ task) = Some e ->
  run_native_check_task w recipe task st =
    (Raise (AssertionError (recipe ++ " -c " ++ task ++ " failed — see log above")),
     after_step st
       [Log INFO "%s -c %s → %s (%d seconds)"
            [VStr recipe; VStr task; VStr "FAILED"; VInt (elapsed w st)];
        Log ERROR "bitbake %s -c %s FAILED: %s" [VStr recipe; VStr task; VExn e];
        Bitbake (recipe ++ " -c " ++ task);
        Log INFO "Running bitbake %s -c %s" [VStr recipe; VStr task]]).
Proof.
  intros H. exec. rewrite H. reflexivity.
Qed.

Lemma run_target_build_passed w recipe st :
  bitbake_raises w recipe = None ->
  run_target_build w recipe st =
    (Ok (elapsed w st),
     after_step st
       [Log INFO "%s → %s (%d seconds)"
            [VStr recipe; VStr "PASSED"; VInt (elapsed w st)];
        Bitbake recipe;
        Log INFO "Running bitbake %s" [VStr recipe]]).
Proof.
  intros H. exec. rewrite H. reflexivity.
Qed.

Lemma run_target_build_failed w recipe st e :
  bitbake_raises w recipe = Some e ->
  run_target_build w recipe st =
    (Raise (AssertionError (recipe ++ " build failed — see log above")),
     after_step st
       [Log INFO "%s → %s (%d seconds)"
            [VStr recipe; VStr "FAILED"; VInt (elapsed w st)];
        Log ERROR "bitbake %s FAILED: %s" [VStr recipe; VExn e];
        Bitbake recipe;
        Log INFO "Running bitbake %s" [VStr recipe]]).
Proof.
  intros H. exec. rewrite H. reflexivity.
Qed.



(** ** Native workflow: stop at the first failing step *)

(** C3. In the native workflow, when step [k] is the first whose bitbake
    task fails, the run raises the assertion failure that names that
    step's recipe and task, and the bitbake commands invoked are exactly
    those of steps [0..k]: no later step is executed. *)
Theorem native_stops_at_first_failure :
  forall (w : World) (k : nat) (recipe task : string) (e : pyexn),
    nth_error native_steps k = Some (recipe, task) ->
    (forall j step, (j < k)%nat -> nth_error native_steps j = Some step ->
                    bitbake_raises w (native_command step) = None) ->
    bitbake_raises w (recipe ++ " -c " ++ task) = Some e ->
    fst (run_native w) =
      Raise (AssertionError (recipe ++ " -c " ++ task ++ " failed — see log above"))
    /\ bitbake_calls (events (snd (run_native w))) =
         firstn (S k) (map native_command native_steps).
Proof.
  intros w k recipe task e Hk Hprev Hfail.
  destruct k as [|[|[|k]]]; simpl in Hk; try (destruct k; discriminate);
    injection Hk as <- <-.
  - exec. bitbake_answers. split; reflexivity.
  - pose proof (Hprev 0%nat _ ltac:(lia) eq_refl) as H0.
    cbv [native_command fst snd] in H0.
    exec. bitbake_answers. split; reflexivity.
  - pose proof (Hprev 0%nat _ ltac:(lia) eq_refl) as H0.
    pose proof (Hprev 1%nat _ ltac:(lia) eq_refl) as H1.
    cbv [native_command fst snd] in H0, H1.
    exec. bitbake_answers. split; reflexivity.
Qed.

(** The second native step fails: the third is never invoked. *)
Lemma native_stops_at_first_failure_witness :
  fst (run_native (with_bitbake_failure "clang-native -c check_clang"
                                        bitbake_error calm_world))
    = Raise (AssertionError "clang-native -c check_clang failed — see log above")
  /\ bitbake_calls
       (events (snd (run_native
                       (with_bitbake_failure "clang-native -c check_clang"
                                             bitbake_error calm_world))))
     = ["llvm-native -c check_llvm"; "clang-native -c check_clang"].
Proof.
  apply (native_stops_at_first_failure
           (with_bitbake_failure "clang-native -c check_clang"
                                 bitbake_error calm_world)
           1%nat "clang-native" "check_clang" bitbake_error).
  - reflexivity.
  - intros j step Hj Hstep.
    destruct j as [|j]; [|lia].
    injection Hstep as <-. reflexivity.
  - reflexivity.
Defined.

(** ** Target workflow: a failing build aborts everything after it *)

(** C1. In the target workflow, when build [k] of the four is the first
    that fails, the run raises that build's assertion failure, the bitbake
    commands invoked are exactly builds [0..k], and no event of a later
    phase (variable lookup, resource setup or teardown, remote command)
    occurs. *)
Theorem target_build_failure_aborts :
  forall (w : World) (k : nat) (recipe : string) (e : pyexn),
    nth_error target_builds k = Some recipe ->
    (forall j r, (j < k)%nat -> nth_error target_builds j = Some r ->
                 bitbake_raises w r = None) ->
    bitbake_raises w recipe = Some e ->
    fst (run_target w) =
      Raise (AssertionError (recipe ++ " build failed — see log above"))
    /\ bitbake_calls (events (snd (run_target w))) = firstn (S k) target_builds
    /\ filter scope_event (events (snd (run_target w))) = [].
Proof.
  intros w k recipe e Hk Hprev Hfail.
  destruct k as [|[|[|[|k]]]]; simpl in Hk; try (destruct k; discriminate);
    injection Hk as <-.
  - exec. bitbake_answers. repeat split; reflexivity.
  - pose proof (Hprev 0%nat _ ltac:(lia) eq_refl) as H0.
    exec. bitbake_answers. repeat split; reflexivity.
  - pose proof (Hprev 0%nat _ ltac:(lia) eq_refl) as H0.
    pose proof (Hprev 1%nat _ ltac:(lia) eq_refl) as H1.
    exec. bitbake_answers. repeat split; reflexivity.
  - pose proof (Hprev 0%nat _ ltac:(lia) eq_refl) as H0.
    pose proof (Hprev 1%nat _ ltac:(lia) eq_refl) as H1.
    pose proof (Hprev 2%nat _ ltac:(lia) eq_refl) as H2.
    exec. bitbake_answers. repeat split; reflexivity.
Qed.

(** The [lld] build fails: [core-image-minimal] is never built and QEMU is
    never started. *)
Lemma target_build_failure_aborts_witness :
  fst (run_target (with_bitbake_failure "lld" bitbake_error calm_world))
    = Raise (AssertionError "lld build failed — see log above")
  /\ bitbake_calls
       (events (snd (run_target
                       (with_bitbake_failure "lld" bitbake_error calm_world))))
     = ["llvm"; "clang"; "lld"]
  /\ filter scope_event
       (events (snd (run_target
                       (with_bitbake_failure "lld" bitbake_error calm_world))))
     = [].
Proof.
  apply (target_build_failure_aborts
           (with_bitbake_failure "lld" bitbake_error calm_world)
           2%nat "lld" bitbake_error).
  - reflexivity.
  - intros j r Hj Hr.
    destruct j as [|[|j]]; [| |lia]; injection Hr as <-; reflexivity.
  - reflexivity.
Defined.

(** ** Walking the paths of a run

    [stuck t] is the collaborator answer on which the evaluation of [t]
    waits; [answer H] splits on it in the run recorded by [H]. *)

Ltac stuck t :=
  lazymatch t with
  | (_, _) => fail
  | bitbake_raises _ _ => t
  | get_bb_var_result _ _ => t
  | runqemu_enter _ => t
  | unfs_server_enter _ => t
  | qemu_run_result _ _ => t
  | Z.eqb _ _ => t
  | match ?x with _ => _ end => stuck x
  | ?f _ => stuck f
  end.

Ltac answer_then prune H :=
  lazymatch type of H with
  | ?run = _ =>
      let s := stuck run in
      lazymatch s with
      | Z.eqb ?a ?b => destruct (Z.eqb_spec a b)
      | qemu_run_result _ _ => destruct s as [?status ?output] eqn:?
      | unfs_server_enter _ => destruct s as [?e|[?nfsport ?mountport]] eqn:?
      | _ => destruct s eqn:?
      end;
      try match goal with
          | K : inl _ = inr _ |- _ => discriminate K
          | K : Some _ = None |- _ => discriminate K
          end;
      try match goal with
          | K : inr _ = inr _ |- _ => injection K; clear K; intros; subst
          end;
      prune;
      exec_in H
  end.

Ltac answer H := answer_then idtac H.

(** Drop a branch that contradicts an assumed exit status. *)
Ltac known_status :=
  try match goal with
      | K : fst (?s, _) = _ |- _ => cbn [fst] in K
      | K : fst (?s, _) <> _ |- _ => cbn [fst] in K
      end;
  try contradiction;
  try match goal with
      | K : ?s = 0, N : ?s <> 0 |- _ => contradiction
      end.

Ltac finish H := injection H as <- <-.

(** ** Resource scope *)

Lemma scope_closed_split (evs : list event) (n : nat) :
  skipn n evs = map Exit (rev (entered (firstn n evs))) ->
  exited (firstn n evs) = [] ->
  scope_closed evs.
Proof.
  intros Hs He. exists (firstn n evs). split; [|exact He].
  rewrite <- Hs. symmetry. apply firstn_skipn.
Qed.

Ltac close_scope :=
  lazymatch goal with
  | |- scope_closed ?evs =>
      let n := eval cbv in (length evs - length (entered evs))%nat in
      apply (scope_closed_split evs n); reflexivity
  end.

(** C2. On every path through the target workflow the event log ends
    with the exits of exactly the context managers that were entered, each
    once, last entered first, and no exit occurs earlier.  The entered
    ones are none, the VM alone, or the VM then the NFS export.  When the
    export acquisition fails after the VM was acquired the VM is exited
    once; when a remote command was issued (reachability, mounting,
    testing) the export and then the VM are exited, whatever the outcome,
    before the run returns. *)
Theorem resources_released_once_in_reverse :
  forall w : World,
    scope_closed (events (snd (run_target w)))
    /\ exited (events (snd (run_target w)))
       = rev (entered (events (snd (run_target w))))
    /\ (entered (events (snd (run_target w))) = []
        \/ entered (events (snd (run_target w))) = [the_vm]
        \/ exists tmpdir,
            entered (events (snd (run_target w)))
              = [the_vm; unfs_server tmpdir])
    /\ (forall tmpdir,
           In (EnterFailed (unfs_server tmpdir)) (events (snd (run_target w))) ->
           exited (events (snd (run_target w))) = [the_vm])
    /\ (remote_commands (events (snd (run_target w))) <> [] ->
        exists tmpdir,
          exited (events (snd (run_target w))) = [unfs_server tmpdir; the_vm]).
Proof.
  intros w.
  destruct (run_target w) as [r st] eqn:Hrun.
  exec_in Hrun.
  repeat answer Hrun.
  all: finish Hrun.
  all: split; [close_scope|].
  all: split; [reflexivity|].
  all: split;
    [ first [ left; reflexivity
            | right; left; reflexivity
            | right; right; eexists; reflexivity ] |].
  all: split;
    [ intros tmpdir' Hin; cbn [events rev app log snd In] in Hin;
      repeat (destruct Hin as [Hin | Hin]; [try discriminate Hin|]);
      try contradiction; reflexivity
    | intros Hcmds; cbn [events remote_commands rev flat_map app log snd] in Hcmds;
      first [ contradiction | eexists; reflexivity ] ].
Qed.

(** The lld copy fails during testing: the export, then the VM, are
    exited. *)
Lemma resources_released_once_in_reverse_witness :
  exists tmpdir,
    exited (events (snd (run_target lld_copy_fails)))
    = [unfs_server tmpdir; the_vm].
Proof.
  apply (proj2 (proj2 (proj2 (proj2
           (resources_released_once_in_reverse lld_copy_fails))))).
  vm_compute. discriminate.
Defined.

(** ** Reachability check *)

Ltac spell_commands :=
  unfold mounted, builds_pass, remote_status, mkdir_command, mount_command,
    lit_command, copy_command, lit_failure, component_name, the_vm in *.

Lemma failed_reachability_check_paths :
  forall w : World,
    fst (qemu_run_result w "uname") <> 0 ->
    (exists e, fst (run_target w) = Raise e)
    /\ (remote_commands (events (snd (run_target w))) = []
        \/ (remote_commands (events (snd (run_target w))) = ["uname"]
            /\ fst (run_target w) =
                 Raise (AssertionError
                          (str_int (fst (qemu_run_result w "uname"))
                             ++ " != 0 : QEMU SSH check failed")))).
Proof.
  intros w Hssh.
  destruct (run_target w) as [r st] eqn:Hrun.
  exec_in Hrun.
  do 9 (try answer Hrun).
  all: cbn [fst] in Hssh; try contradiction.
  all: finish Hrun; split; [eexists; reflexivity|].
  all: vm_compute; first [left; reflexivity | right; split; reflexivity].
Qed.

(** C5. When the reachability check [uname] exits non-zero, the run
    fails, [uname] is the only remote command that can have been issued,
    so neither the mount-point creation nor the mount command is issued,
    and once [uname] was issued the failure is the SSH check assertion. *)
Theorem failed_reachability_check_blocks_mount :
  forall w : World,
    remote_status w "uname" <> 0 ->
    (exists e, fst (run_target w) = Raise e)
    /\ (forall c, In c (remote_commands (events (snd (run_target w)))) ->
                  c = "uname")
    /\ (forall tmpdir qemu nfsport mountport,
           ~ In (mkdir_command tmpdir)
                (remote_commands (events (snd (run_target w))))
           /\ ~ In (mount_command tmpdir qemu nfsport mountport)
                   (remote_commands (events (snd (run_target w)))))
    /\ (In "uname" (remote_commands (events (snd (run_target w)))) ->
        fst (run_target w) =
          Raise (AssertionError (str_int (remote_status w "uname")
                                   ++ " != 0 : QEMU SSH check failed"))).
Proof.
  intros w Hssh. unfold remote_status in *.
  destruct (failed_reachability_check_paths w Hssh) as [Hfail Hcmds].
  split; [exact Hfail|].
  destruct Hcmds as [Hnil | [Huname Hres]].
  - rewrite Hnil. split; [intros c []|].
    split; [intros; split; intros []|intros []].
  - rewrite Huname. split; [|split; [|intros _; exact Hres]].
    + intros c [<- | []]. reflexivity.
    + intros tmpdir qemu nfsport mountport. unfold mkdir_command, mount_command.
      split; intros [H | []]; discriminate H.
Qed.

(** A calm world in which only [uname] exits 1. *)
Lemma failed_reachability_check_blocks_mount_witness :
  remote_status (with_remote_answer "uname" (1, "sh: uname: not found")
                                    calm_world) "uname" <> 0
  /\ exists e,
      fst (run_target (with_remote_answer "uname" (1, "sh: uname: not found")
                                          calm_world)) = Raise e.
Proof.
  assert (H : remote_status
                (with_remote_answer "uname" (1, "sh: uname: not found")
                                    calm_world) "uname" <> 0)
    by (vm_compute; discriminate).
  split; [exact H|].
  exact (proj1 (failed_reachability_check_blocks_mount _ H)).
Defined.

(** ** Telling the remote commands apart *)

Lemma append_assoc (a b c : string) : (a ++ b) ++ c = a ++ (b ++ c).
Proof.
  induction a as [|ch a IH]; simpl; [reflexivity|].
  now rewrite IH.
Qed.

Lemma append_cancel_l (t a b : string) : t ++ a = t ++ b -> a = b.
Proof.
  induction t as [|ch t IH]; simpl; intros H; [exact H|].
  injection H as H. auto.
Qed.

(** [differ H] refutes an equation [H] between two different commands:
    either their literal prefixes disagree, or they agree up to the
    directory name and disagree after it. *)
Ltac differ H :=
  cbn [append dq] in H;
  first
    [ discriminate H
    | repeat (injection H as H);
      rewrite ?append_assoc in H;
      apply append_cancel_l in H;
      cbn [append] in H;
      discriminate H ].

Ltac list_commands :=
  cbn [events remote_commands exited entered rev flat_map app log snd fst In] in *.

Ltac solve_In :=
  cbn [append dq]; repeat first [ left; reflexivity | right ].

(** Case analysis on the membership facts of a leaf of the path walk:
    impossible memberships are refuted with [differ], the others carry no
    information beyond the answers already recorded. *)
Ltac leaf :=
  cbn [fst snd] in *;
  repeat match goal with
         | |- _ /\ _ => split
         | |- _ <-> _ => split
         | |- _ -> _ => intro
         | |- ~ _ => intro
         | H : _ /\ _ |- _ => destruct H
         | H : _ \/ _ |- _ => destruct H
         | H : False |- _ => destruct H
         | H : @eq string _ _ |- _ => first [ differ H | clear H ]
         end;
  try solve [ assumption | contradiction | congruence | reflexivity | solve_In ].

(** ** Per-component testing *)

(** C6. For each component, the copy of its result file is among the
    remote commands of the run exactly when its lit invocation is among
    them and exited zero; when the lit invocation was issued and exited
    non-zero, the run raises that component's lit failure and the copy is
    not issued. *)
Theorem copy_only_after_successful_lit :
  forall (w : World) (tmpdir : string) (c : component),
    get_bb_var_result w "TMPDIR" = inr tmpdir ->
    (In (copy_command c tmpdir) (remote_commands (events (snd (run_target w))))
     <-> In (lit_command c tmpdir) (remote_commands (events (snd (run_target w))))
         /\ remote_status w (lit_command c tmpdir) = 0)
    /\ (In (lit_command c tmpdir) (remote_commands (events (snd (run_target w)))) ->
        remote_status w (lit_command c tmpdir) <> 0 ->
        fst (run_target w) = Raise (lit_failure c)
        /\ ~ In (copy_command c tmpdir)
                (remote_commands (events (snd (run_target w))))).
Proof.
  intros w tmpdir c Htmp.
  destruct (run_target w) as [r st] eqn:Hrun.
  exec_in Hrun.
  destruct c; spell_commands.
  all: repeat answer Hrun.
  all: finish Hrun.
  all: list_commands.
  all: leaf.
Qed.

(** In a calm world the lld copy follows its successful lit run. *)
Lemma copy_only_after_successful_lit_witness :
  In (copy_command lld "/build/tmp")
     (remote_commands (events (snd (run_target calm_world))))
  <-> In (lit_command lld "/build/tmp")
         (remote_commands (events (snd (run_target calm_world))))
      /\ remote_status calm_world (lit_command lld "/build/tmp") = 0.
Proof.
  exact (proj1 (copy_only_after_successful_lit calm_world "/build/tmp" lld
                                               eq_refl)).
Defined.

Lemma builds_pass_each (w : World) :
  builds_pass w ->
  bitbake_raises w "llvm" = None
  /\ bitbake_raises w "clang" = None
  /\ bitbake_raises w "lld" = None
  /\ bitbake_raises w "core-image-minimal" = None.
Proof.
  intros H. repeat split; apply H; simpl; auto.
Qed.

(** C7. After a successful mount, when the lit run of the first
    component (lld) exits zero and the copy of its result file does not,
    the run raises the copy failure of lld, which is not the lit failure;
    the remote commands end with that copy, so neither the lit run nor
    the copy of the other two components is issued. *)
Theorem failed_copy_stops_the_run :
  forall (w : World) (tmpdir : string) (qemu : qemu_handle)
         (nfsport mountport : Z),
    mounted w tmpdir qemu nfsport mountport ->
    remote_status w (lit_command lld tmpdir) = 0 ->
    remote_status w (copy_command lld tmpdir) <> 0 ->
    fst (run_target w) =
      Raise (AssertionError "Failed to copy LLD lit results back to host")
    /\ fst (run_target w) <> Raise (lit_failure lld)
    /\ remote_commands (events (snd (run_target w))) =
         ["uname"; mkdir_command tmpdir;
          mount_command tmpdir qemu nfsport mountport;
          lit_command lld tmpdir; copy_command lld tmpdir]
    /\ (forall c, c <> lld ->
          ~ In (lit_command c tmpdir)
               (remote_commands (events (snd (run_target w))))
          /\ ~ In (copy_command c tmpdir)
                  (remote_commands (events (snd (run_target w))))).
Proof.
  intros w tmpdir qemu nfsport mountport Hm Hlit Hcp.
  destruct Hm as (Hb & Htmp & Hvm & Hnfs & Hssh & Hmk & Hmo).
  apply builds_pass_each in Hb. destruct Hb as (B1 & B2 & B3 & B4).
  destruct (run_target w) as [r st] eqn:Hrun.
  exec_in Hrun. spell_commands.
  repeat answer_then known_status Hrun.
  finish Hrun. list_commands.
  split; [reflexivity|]. split; [discriminate|]. split; [reflexivity|].
  intros c Hc. destruct c; [contradiction| |]; leaf.
Qed.

(** A calm world in which only the copy of the lld results exits 1. *)
Lemma failed_copy_stops_the_run_witness :
  fst (run_target lld_copy_fails) =
    Raise (AssertionError "Failed to copy LLD lit results back to host").
Proof.
  refine (proj1 (failed_copy_stops_the_run
                   lld_copy_fails "/build/tmp" {| server_ip := "192.168.7.2" |}
                   3049 3048 _ _ _)).
  - repeat split; vm_compute; reflexivity.
  - vm_compute. reflexivity.
  - vm_compute. discriminate.
Defined.

(** ** Which step does a failure name? *)

(** C9. When only the copy of the clang results fails, the assertion
    failure raised names LLVM and does not mention clang, the component
    whose copy failed; the copy failures of the two sibling components
    each name their own component. *)
Theorem clang_copy_failure_names_llvm :
  fst (run_target clang_copy_fails) =
    Raise (AssertionError "Failed to copy LLVM lit results back to host")
  /\ last (remote_commands (events (snd (run_target clang_copy_fails))))
          EmptyString
     = copy_command clang "/build/tmp"
  /\ mentions "clang" "Failed to copy LLVM lit results back to host" = false
  /\ mentions "llvm" "Failed to copy LLVM lit results back to host" = true
  /\ fst (run_target lld_copy_fails) =
       Raise (AssertionError "Failed to copy LLD lit results back to host")
  /\ mentions "lld" "Failed to copy LLD lit results back to host" = true.
Proof.
  repeat split; vm_compute; reflexivity.
Qed.

(** ** Durations *)

Lemma py_int_floor (x : Q) : (0 <= x)%Q -> py_int x = Qfloor x.
Proof.
  destruct x as [n d]. unfold py_int, Qfloor, Qle. simpl. intros H.
  apply Z.quot_div_nonneg; lia.
Qed.

Lemma py_int_elapsed (a b : Q) : (a <= b)%Q -> py_int (b - a) = Qfloor (b - a).
Proof.
  intros H. apply py_int_floor. lra.
Qed.

Lemma clock_monotone_le (w : World) :
  clock_monotone w ->
  forall n m : nat, (n <= m)%nat -> (clock w n <= clock w m)%Q.
Proof.
  intros Hmono n m Hnm. induction Hnm as [|m Hnm IH].
  - apply Qle_refl.
  - eapply Qle_trans; [exact IH | apply Hmono].
Qed.

Lemma floor_ge (x : Q) (k : Z) : (inject_Z k <= x)%Q -> k <= Qfloor x.
Proof.
  intros H. rewrite <- (Qfloor_Z k). now apply Qfloor_resp_le.
Qed.

Lemma floor_lt (x : Q) (k : Z) : (x < inject_Z k)%Q -> Qfloor x < k.
Proof.
  intros H. destruct (Z.lt_ge_cases (Qfloor x) k) as [Hlt | Hge]; [exact Hlt|].
  exfalso. apply (Qlt_irrefl x).
  eapply Qlt_le_trans; [exact H|].
  eapply Qle_trans; [|apply Qfloor_le].
  rewrite <- Zle_Qle. exact Hge.
Qed.

Lemma native_steps_pass_each (w : World) :
  native_steps_pass w ->
  bitbake_raises w ("llvm-native" ++ " -c " ++ "check_llvm") = None
  /\ bitbake_raises w ("clang-native" ++ " -c " ++ "check_clang") = None
  /\ bitbake_raises w ("lld-native" ++ " -c " ++ "check_lld") = None.
Proof.
  intros H. repeat split.
  - apply (H ("llvm-native", "check_llvm")). simpl. auto.
  - apply (H ("clang-native", "check_clang")). simpl. auto.
  - apply (H ("lld-native", "check_lld")). simpl. auto.
Qed.

(** The summary of a successful native run, in terms of the clock. *)
Lemma native_summary (w : World) :
  native_steps_pass w ->
  fst (run_native w) = Ok tt
  /\ reported "  llvm-native  -c check_llvm  : %d s"
              (events (snd (run_native w)))
     = [py_int (clock w 2 - clock w 1)]
  /\ reported "  clang-native -c check_clang : %d s"
              (events (snd (run_native w)))
     = [py_int (clock w 4 - clock w 3)]
  /\ reported "  lld-native   -c check_lld   : %d s"
              (events (snd (run_native w)))
     = [py_int (clock w 6 - clock w 5)]
  /\ reported "  TOTAL EXECUTION TIME        : %d s"
              (events (snd (run_native w)))
     = [py_int (clock w 7 - clock w 0)].
Proof.
  intros H. apply native_steps_pass_each in H. destruct H as (B1 & B2 & B3).
  exec. bitbake_answers.
  generalize (py_int (clock w 2 - clock w 1)) (py_int (clock w 4 - clock w 3))
             (py_int (clock w 6 - clock w 5)) (py_int (clock w 7 - clock w 0)).
  intros d1 d2 d3 t. repeat split.
Qed.

(** The summary of the target builds, logged before the resource scope
    is entered. *)
Lemma target_summary (w : World) :
  builds_pass w ->
  reported "  llvm  build : %d s" (events (snd (run_target w)))
    = [py_int (clock w 2 - clock w 1)]
  /\ reported "  clang build : %d s" (events (snd (run_target w)))
     = [py_int (clock w 4 - clock w 3)]
  /\ reported "  lld   build : %d s" (events (snd (run_target w)))
     = [py_int (clock w 6 - clock w 5)]
  /\ reported "  core-image-minimal build : %d s" (events (snd (run_target w)))
     = [py_int (clock w 8 - clock w 7)]
  /\ reported "  TOTAL BUILD TIME : %d s" (events (snd (run_target w)))
     = [py_int (clock w 9 - clock w 0)].
Proof.
  intros H. apply builds_pass_each in H. destruct H as (B1 & B2 & B3 & B4).
  destruct (run_target w) as [r st] eqn:Hrun.
  exec_in Hrun.
  do 4 answer Hrun.
  revert Hrun.
  generalize (py_int (clock w 2 - clock w 1)) (py_int (clock w 4 - clock w 3))
             (py_int (clock w 6 - clock w 5)) (py_int (clock w 8 - clock w 7))
             (py_int (clock w 9 - clock w 0)).
  intros d1 d2 d3 d4 t Hrun.
  repeat answer Hrun.
  all: finish Hrun.
  all: repeat split; vm_compute; reflexivity.
Qed.

Lemma calm_world_monotone : clock_monotone calm_world.
Proof.
  intros n. unfold calm_world, clock. rewrite <- Zle_Qle. lia.
Qed.

Lemma half_second_clock_monotone : clock_monotone half_second_clock.
Proof.
  intros n. unfold half_second_clock, clock, Qle. cbn [Qnum Qden]. lia.
Qed.

Lemma ten_twenty_thirty_monotone : clock_monotone ten_twenty_thirty.
Proof.
  intros n. unfold ten_twenty_thirty, with_clock, clock.
  do 8 (destruct n as [|n]; [vm_compute; discriminate|]).
  cbn [nth]. destruct n; apply Qle_refl.
Qed.

(** The last record a timed step logs carries the truncated difference
    of the two clock readings taken around its bitbake call, and that is
    the value the step returns when it succeeds. *)
Lemma native_step_duration (w : World) (recipe task : string) (st : state) :
  exists status,
    hd_error (log (snd (run_native_check_task w recipe task st)))
    = Some (Log INFO "%s -c %s → %s (%d seconds)"
                [VStr recipe; VStr task; VStr status;
                 VInt (py_int (clock w (S (clock_reads st))
                               - clock w (clock_reads st)))])
    /\ forall d, fst (run_native_check_task w recipe task st) = Ok d ->
                 d = py_int (clock w (S (clock_reads st))
                             - clock w (clock_reads st)).
Proof.
  destruct (bitbake_raises w (recipe ++ " -c " ++ task)) as [e|] eqn:E.
  - rewrite (run_native_check_task_failed w recipe task st e E).
    exists "FAILED". split; [reflexivity|]. intros d H. discriminate H.
  - rewrite (run_native_check_task_passed w recipe task st E).
    exists "PASSED". split; [reflexivity|]. intros d H.
    injection H as <-. reflexivity.
Qed.

Lemma target_step_duration (w : World) (recipe : string) (st : state) :
  exists status,
    hd_error (log (snd (run_target_build w recipe st)))
    = Some (Log INFO "%s → %s (%d seconds)"
                [VStr recipe; VStr status;
                 VInt (py_int (clock w (S (clock_reads st))
                               - clock w (clock_reads st)))])
    /\ forall d, fst (run_target_build w recipe st) = Ok d ->
                 d = py_int (clock w (S (clock_reads st))
                             - clock w (clock_reads st)).
Proof.
  destruct (bitbake_raises w recipe) as [e|] eqn:E.
  - rewrite (run_target_build_failed w recipe st e E).
    exists "FAILED". split; [reflexivity|]. intros d H. discriminate H.
  - rewrite (run_target_build_passed w recipe st E).
    exists "PASSED". split; [reflexivity|]. intros d H.
    injection H as <-. reflexivity.
Qed.

Lemma set_back_clock_passes : native_steps_pass set_back_clock.
Proof.
  intros step _. reflexivity.
Qed.

(** C10 as stated fails: when the clock is set back by three tenths of
    a second during the first native step, all steps pass and the summary
    reports 0 seconds for that step, while the floor of the difference of
    its two readings is -1. *)
Lemma floored_duration_refuted :
  ~ (native_steps_pass set_back_clock ->
     reported "  llvm-native  -c check_llvm  : %d s"
              (events (snd (run_native set_back_clock)))
     = [Qfloor (clock set_back_clock 2 - clock set_back_clock 1)]).
Proof.
  intros H. specialize (H set_back_clock_passes).
  vm_compute in H. discriminate H.
Qed.

(** C10, amended.  Every reported duration is the difference of its own
    pair of clock readings truncated toward zero, as Python's int does:
    a timed step, passing or failing, logs last the truncated difference
    of the two readings around its bitbake call and returns it on
    success; the summary of each workflow reports those of the steps and,
    as total, that of the readings before the first and after the last
    step.  The truncation is the floor whenever the later reading is not
    before the earlier one.  The total is not the sum of the step
    durations: on a clock that is never set back and whose readings are
    half a second apart every step reports 0 seconds while the native
    total is 3 and the target total is 4. *)
Theorem durations_are_truncated_clock_differences :
  (forall (w : World) (recipe task : string) (st : state),
      exists status,
        hd_error (log (snd (run_native_check_task w recipe task st)))
        = Some (Log INFO "%s -c %s → %s (%d seconds)"
                    [VStr recipe; VStr task; VStr status;
                     VInt (py_int (clock w (S (clock_reads st))
                                   - clock w (clock_reads st)))])
        /\ forall d, fst (run_native_check_task w recipe task st) = Ok d ->
                     d = py_int (clock w (S (clock_reads st))
                                 - clock w (clock_reads st)))
  /\ (forall (w : World) (recipe : string) (st : state),
         exists status,
           hd_error (log (snd (run_target_build w recipe st)))
           = Some (Log INFO "%s → %s (%d seconds)"
                       [VStr recipe; VStr status;
                        VInt (py_int (clock w (S (clock_reads st))
                                      - clock w (clock_reads st)))])
           /\ forall d, fst (run_target_build w recipe st) = Ok d ->
                        d = py_int (clock w (S (clock_reads st))
                                    - clock w (clock_reads st)))
  /\ (forall w : World,
         native_steps_pass w ->
         reported "  llvm-native  -c check_llvm  : %d s"
                  (events (snd (run_native w)))
           = [py_int (clock w 2 - clock w 1)]
         /\ reported "  clang-native -c check_clang : %d s"
                     (events (snd (run_native w)))
            = [py_int (clock w 4 - clock w 3)]
         /\ reported "  lld-native   -c check_lld   : %d s"
                     (events (snd (run_native w)))
            = [py_int (clock w 6 - clock w 5)]
         /\ reported "  TOTAL EXECUTION TIME        : %d s"
                     (events (snd (run_native w)))
            = [py_int (clock w 7 - clock w 0)])
  /\ (forall w : World,
         builds_pass w ->
         reported "  llvm  build : %d s" (events (snd (run_target w)))
           = [py_int (clock w 2 - clock w 1)]
         /\ reported "  clang build : %d s" (events (snd (run_target w)))
            = [py_int (clock w 4 - clock w 3)]
         /\ reported "  lld   build : %d s" (events (snd (run_target w)))
            = [py_int (clock w 6 - clock w 5)]
         /\ reported "  core-image-minimal build : %d s"
                     (events (snd (run_target w)))
            = [py_int (clock w 8 - clock w 7)]
         /\ reported "  TOTAL BUILD TIME : %d s" (events (snd (run_target w)))
            = [py_int (clock w 9 - clock w 0)])
  /\ (forall earlier later : Q,
         (earlier <= later)%Q ->
         py_int (later - earlier) = Qfloor (later - earlier))
  /\ (exists (w : World) (d1 d2 d3 t : Z),
         clock_monotone w /\ fst (run_native w) = Ok tt
         /\ reported "  llvm-native  -c check_llvm  : %d s"
                     (events (snd (run_native w))) = [d1]
         /\ reported "  clang-native -c check_clang : %d s"
                     (events (snd (run_native w))) = [d2]
         /\ reported "  lld-native   -c check_lld   : %d s"
                     (events (snd (run_native w))) = [d3]
         /\ reported "  TOTAL EXECUTION TIME        : %d s"
                     (events (snd (run_native w))) = [t]
         /\ t <> d1 + d2 + d3)
  /\ (exists (w : World) (d1 d2 d3 d4 t : Z),
         clock_monotone w /\ fst (run_target w) = Ok tt
         /\ reported "  llvm  build : %d s" (events (snd (run_target w))) = [d1]
         /\ reported "  clang build : %d s" (events (snd (run_target w))) = [d2]
         /\ reported "  lld   build : %d s" (events (snd (run_target w))) = [d3]
         /\ reported "  core-image-minimal build : %d s"
                     (events (snd (run_target w))) = [d4]
         /\ reported "  TOTAL BUILD TIME : %d s" (events (snd (run_target w)))
            = [t]
         /\ t <> d1 + d2 + d3 + d4).
Proof.
  split; [|split; [|split; [|split; [|split; [|split]]]]].
  - apply native_step_duration.
  - apply target_step_duration.
  - intros w Hpass. apply (native_summary w Hpass).
  - intros w Hpass. apply (target_summary w Hpass).
  - intros earlier later H. now apply py_int_elapsed.
  - exists half_second_clock, 0, 0, 0, 3.
    split; [exact half_second_clock_monotone|].
    repeat split; try (vm_compute; reflexivity). discriminate.
  - exists half_second_clock, 0, 0, 0, 0, 4.
    split; [exact half_second_clock_monotone|].
    repeat split; try (vm_compute; reflexivity). discriminate.
Qed.

Lemma calm_world_native_steps_pass : native_steps_pass calm_world.
Proof.
  intros step _. reflexivity.
Qed.

(** With the clock set back during the first step, the summary reports
    the truncated difference of that step's own readings. *)
Lemma durations_are_truncated_clock_differences_witness :
  reported "  llvm-native  -c check_llvm  : %d s"
           (events (snd (run_native set_back_clock)))
  = [py_int (clock set_back_clock 2 - clock set_back_clock 1)].
Proof.
  exact (proj1 (proj1 (proj2 (proj2 durations_are_truncated_clock_differences))
                      set_back_clock set_back_clock_passes)).
Defined.

(** ** The 10 s, 20 s, 30 s scenario *)

Lemma ten_twenty_thirty_passes : native_steps_pass ten_twenty_thirty.
Proof.
  intros step _. reflexivity.
Qed.

(** C8 as stated fails: with steps of exactly 10, 20 and 30 seconds and
    0.4 seconds spent between the readings, on a clock that is never set
    back, all three steps pass and report 10, 20 and 30, yet the summary
    total is 61, not 60. *)
Lemma summary_total_sixty_refuted :
  ~ (native_steps_pass ten_twenty_thirty ->
     clock_monotone ten_twenty_thirty ->
     (clock ten_twenty_thirty 2 - clock ten_twenty_thirty 1 == 10)%Q ->
     (clock ten_twenty_thirty 4 - clock ten_twenty_thirty 3 == 20)%Q ->
     (clock ten_twenty_thirty 6 - clock ten_twenty_thirty 5 == 30)%Q ->
     reported "  llvm-native  -c check_llvm  : %d s"
              (events (snd (run_native ten_twenty_thirty))) = [10] ->
     reported "  clang-native -c check_clang : %d s"
              (events (snd (run_native ten_twenty_thirty))) = [20] ->
     reported "  lld-native   -c check_lld   : %d s"
              (events (snd (run_native ten_twenty_thirty))) = [30] ->
     fst (run_native ten_twenty_thirty) = Ok tt
     /\ reported "  TOTAL EXECUTION TIME        : %d s"
                 (events (snd (run_native ten_twenty_thirty))) = [60]).
Proof.
  intros H.
  destruct H as [_ Htotal];
    try exact ten_twenty_thirty_passes;
    try exact ten_twenty_thirty_monotone;
    try (vm_compute; reflexivity).
  vm_compute in Htotal. discriminate Htotal.
Qed.

(** C8, amended.  When the three native steps pass and report 10, 20 and
    30 seconds, the run succeeds and the summary total is the truncated
    difference of the readings taken before the first and after the last
    step; on a clock that is never set back it is at least 60, and it is
    60 when that difference is below 61 seconds. *)
Theorem summary_total_at_least_sixty :
  forall w : World,
    native_steps_pass w ->
    reported "  llvm-native  -c check_llvm  : %d s"
             (events (snd (run_native w))) = [10] ->
    reported "  clang-native -c check_clang : %d s"
             (events (snd (run_native w))) = [20] ->
    reported "  lld-native   -c check_lld   : %d s"
             (events (snd (run_native w))) = [30] ->
    fst (run_native w) = Ok tt
    /\ reported "  TOTAL EXECUTION TIME        : %d s"
                (events (snd (run_native w)))
       = [py_int (clock w 7 - clock w 0)]
    /\ (clock_monotone w ->
        60 <= py_int (clock w 7 - clock w 0)
        /\ ((clock w 7 - clock w 0 < 61)%Q ->
            py_int (clock w 7 - clock w 0) = 60)).
Proof.
  intros w Hpass R1 R2 R3.
  destruct (native_summary w Hpass) as (Hok & H1 & H2 & H3 & Ht).
  split; [exact Hok|]. split; [exact Ht|].
  intros Hmono.
  rewrite H1 in R1. rewrite H2 in R2. rewrite H3 in R3.
  injection R1 as R1. injection R2 as R2. injection R3 as R3.
  pose proof (clock_monotone_le w Hmono) as Hle.
  rewrite py_int_elapsed in R1, R2, R3 by (apply Hle; lia).
  rewrite py_int_elapsed by (apply Hle; lia).
  pose proof (Qfloor_le (clock w 2 - clock w 1)) as F1.
  pose proof (Qfloor_le (clock w 4 - clock w 3)) as F2.
  pose proof (Qfloor_le (clock w 6 - clock w 5)) as F3.
  rewrite R1 in F1. rewrite R2 in F2. rewrite R3 in F3.
  change (inject_Z 10) with 10%Q in F1.
  change (inject_Z 20) with 20%Q in F2.
  change (inject_Z 30) with 30%Q in F3.
  pose proof (Hle 0%nat 1%nat ltac:(lia)) as L01.
  pose proof (Hle 2%nat 3%nat ltac:(lia)) as L23.
  pose proof (Hle 4%nat 5%nat ltac:(lia)) as L45.
  pose proof (Hle 6%nat 7%nat ltac:(lia)) as L67.
  assert (Hge : 60 <= Qfloor (clock w 7 - clock w 0)).
  { apply floor_ge. change (inject_Z 60) with 60%Q. lra. }
  split; [exact Hge|].
  intros Hlt.
  assert (Hlt' : Qfloor (clock w 7 - clock w 0) < 61).
  { apply floor_lt. change (inject_Z 61) with 61%Q. exact Hlt. }
  lia.
Qed.

(** The scenario above: the steps report 10, 20 and 30, the total is the
    truncated 61.6 seconds between the outer readings. *)
Lemma summary_total_at_least_sixty_witness :
  reported "  TOTAL EXECUTION TIME        : %d s"
           (events (snd (run_native ten_twenty_thirty)))
  = [py_int (clock ten_twenty_thirty 7 - clock ten_twenty_thirty 0)].
Proof.
  refine (proj1 (proj2 (summary_total_at_least_sixty
                          ten_twenty_thirty ten_twenty_thirty_passes _ _ _)));
    vm_compute; reflexivity.
Defined.

(** * Further properties of the native workflow *)

Lemma native_steps_pass_of_each (w : World) :
  bitbake_raises w ("llvm-native" ++ " -c " ++ "check_llvm") = None ->
  bitbake_raises w ("clang-native" ++ " -c " ++ "check_clang") = None ->
  bitbake_raises w ("lld-native" ++ " -c " ++ "check_lld") = None ->
  native_steps_pass w.
Proof.
  intros H1 H2 H3 step Hin. simpl in Hin.
  destruct Hin as [<- | [<- | [<- | []]]]; assumption.
Qed.

(** X1. The native workflow succeeds exactly when its three check tasks
    pass; it then invoked the three bitbake commands in source order and
    logged no ERROR record. *)
Theorem native_succeeds_iff_steps_pass :
  forall w : World,
    (fst (run_native w) = Ok tt <-> native_steps_pass w)
    /\ (native_steps_pass w ->
        bitbake_calls (events (snd (run_native w)))
          = map native_command native_steps
        /\ error_records (events (snd (run_native w))) = []).
Proof.
  intros w. split; [split|].
  - destruct (run_native w) as [r st] eqn:Hrun. exec_in Hrun.
    repeat answer Hrun.
    all: finish Hrun; cbn [fst]; intros Hok; try discriminate Hok.
    apply native_steps_pass_of_each; assumption.
  - intros H. apply (native_summary w H).
  - intros H. apply native_steps_pass_each in H. destruct H as (B1 & B2 & B3).
    exec. bitbake_answers. split; reflexivity.
Qed.

(** In the calm world the three commands are invoked in order. *)
Lemma native_succeeds_iff_steps_pass_witness :
  bitbake_calls (events (snd (run_native calm_world)))
  = map native_command native_steps.
Proof.
  refine (proj1 (proj2 (native_succeeds_iff_steps_pass calm_world) _)).
  intros step _. reflexivity.
Defined.

(** X2. Whatever the collaborators answer, the native workflow never
    looks up a variable, starts QEMU or the NFS export, or issues a remote
    command, and the bitbake commands it invokes are the first one, two or
    three of its steps, in source order. *)
Theorem native_run_stays_on_host :
  forall w : World,
    filter scope_event (events (snd (run_native w))) = []
    /\ exists k : nat,
        (1 <= k <= 3)%nat
        /\ bitbake_calls (events (snd (run_native w)))
           = firstn k (map native_command native_steps).
Proof.
  intros w.
  destruct (run_native w) as [r st] eqn:Hrun. exec_in Hrun.
  repeat answer Hrun.
  all: finish Hrun; split; [reflexivity|].
  - exists 1%nat. split; [lia | reflexivity].
  - exists 2%nat. split; [lia | reflexivity].
  - exists 3%nat. split; [lia | reflexivity].
  - exists 3%nat. split; [lia | reflexivity].
Qed.

(** X3. When the native workflow fails, no line of the timing summary
    and no completion banner is logged, and the log holds exactly one
    ERROR record: the one of the failing step, carrying the exception
    that bitbake raised for that step. *)
Theorem native_failure_logs_cause_and_no_summary :
  forall w : World,
    fst (run_native w) <> Ok tt ->
    reported "  llvm-native  -c check_llvm  : %d s"
             (events (snd (run_native w))) = []
    /\ reported "  clang-native -c check_clang : %d s"
                (events (snd (run_native w))) = []
    /\ reported "  lld-native   -c check_lld   : %d s"
                (events (snd (run_native w))) = []
    /\ reported "  TOTAL EXECUTION TIME        : %d s"
                (events (snd (run_native w))) = []
    /\ ~ In (Log INFO "ALL LIT TEST SUITES COMPLETED SUCCESSFULLY" [])
            (events (snd (run_native w)))
    /\ exists recipe task e,
        In (recipe, task) native_steps
        /\ bitbake_raises w (recipe ++ " -c " ++ task) = Some e
        /\ error_records (events (snd (run_native w)))
           = [Log ERROR "bitbake %s -c %s FAILED: %s"
                  [VStr recipe; VStr task; VExn e]].
Proof.
  intros w.
  destruct (run_native w) as [r st] eqn:Hrun. exec_in Hrun.
  repeat answer Hrun.
  all: finish Hrun; cbn [fst snd]; intros Hfail; try contradiction.
  all: generalize (py_int (clock w 2 - clock w 1));
    generalize (py_int (clock w 4 - clock w 3));
    generalize (py_int (clock w 6 - clock w 5)); intros d3 d2 d1.
  all: do 4 (split; [vm_compute; reflexivity|]).
  all: split;
    [ cbn [events rev app log In];
      intros Hin; repeat (destruct Hin as [Hin | Hin]; [discriminate Hin|]);
      exact Hin |].
  - exists "llvm-native", "check_llvm", p.
    split; [simpl; auto|]. split; [assumption | reflexivity].
  - exists "clang-native", "check_clang", p.
    split; [simpl; auto|]. split; [assumption | reflexivity].
  - exists "lld-native", "check_lld", p.
    split; [simpl; auto|]. split; [assumption | reflexivity].
Qed.

(** The failing second step of the earlier scenario. *)
Lemma native_failure_logs_cause_and_no_summary_witness :
  reported "  TOTAL EXECUTION TIME        : %d s"
           (events (snd (run_native
                           (with_bitbake_failure "clang-native -c check_clang"
                                                 bitbake_error calm_world))))
  = [].
Proof.
  refine (proj1 (proj2 (proj2 (proj2
            (native_failure_logs_cause_and_no_summary
               (with_bitbake_failure "clang-native -c check_clang"
                                     bitbake_error calm_world) _))))).
  vm_compute. discriminate.
Defined.

(** * Further properties of the durations *)


Lemma floor_nonneg (x : Q) : (0 <= x)%Q -> 0 <= Qfloor x.
Proof.
  intros H. apply floor_ge. exact H.
Qed.

Lemma floor_add_le (a b : Q) : Qfloor a + Qfloor b <= Qfloor (a + b).
Proof.
  apply floor_ge. rewrite inject_Z_plus.
  pose proof (Qfloor_le a). pose proof (Qfloor_le b). lra.
Qed.




(** X5. On a clock that is never set back, a successful native run
    reports three non-negative step durations whose sum does not exceed
    the reported total. *)
Theorem native_total_bounds_sum :
  forall w : World,
    clock_monotone w -> native_steps_pass w ->
    exists d1 d2 d3 t : Z,
      reported "  llvm-native  -c check_llvm  : %d s"
               (events (snd (run_native w))) = [d1]
      /\ reported "  clang-native -c check_clang : %d s"
                  (events (snd (run_native w))) = [d2]
      /\ reported "  lld-native   -c check_lld   : %d s"
                  (events (snd (run_native w))) = [d3]
      /\ reported "  TOTAL EXECUTION TIME        : %d s"
                  (events (snd (run_native w))) = [t]
      /\ 0 <= d1 /\ 0 <= d2 /\ 0 <= d3
      /\ d1 + d2 + d3 <= t.
Proof.
  intros w Hmono Hpass.
  destruct (native_summary w Hpass) as (_ & H1 & H2 & H3 & Ht).
  pose proof (clock_monotone_le w Hmono) as Hle.
  rewrite py_int_elapsed in H1, H2, H3, Ht by (apply Hle; lia).
  do 4 eexists. do 4 (split; [eassumption|]).
  pose proof (Hle 0%nat 1%nat ltac:(lia)) as L01.
  pose proof (Hle 1%nat 2%nat ltac:(lia)) as L12.
  pose proof (Hle 2%nat 3%nat ltac:(lia)) as L23.
  pose proof (Hle 3%nat 4%nat ltac:(lia)) as L34.
  pose proof (Hle 4%nat 5%nat ltac:(lia)) as L45.
  pose proof (Hle 5%nat 6%nat ltac:(lia)) as L56.
  pose proof (Hle 6%nat 7%nat ltac:(lia)) as L67.
  repeat split; try (apply floor_nonneg; lra).
  eapply Z.le_trans; [apply Z.add_le_mono_r; apply floor_add_le|].
  eapply Z.le_trans; [apply floor_add_le|].
  apply Qfloor_resp_le. lra.
Qed.

(** In the scenario of steps of 10, 20 and 30 seconds the sum 60 is
    below the total. *)
Lemma native_total_bounds_sum_witness :
  exists d1 d2 d3 t : Z,
    reported "  llvm-native  -c check_llvm  : %d s"
             (events (snd (run_native ten_twenty_thirty))) = [d1]
    /\ reported "  clang-native -c check_clang : %d s"
                (events (snd (run_native ten_twenty_thirty))) = [d2]
    /\ reported "  lld-native   -c check_lld   : %d s"
                (events (snd (run_native ten_twenty_thirty))) = [d3]
    /\ reported "  TOTAL EXECUTION TIME        : %d s"
                (events (snd (run_native ten_twenty_thirty))) = [t]
    /\ 0 <= d1 /\ 0 <= d2 /\ 0 <= d3
    /\ d1 + d2 + d3 <= t.
Proof.
  exact (native_total_bounds_sum ten_twenty_thirty ten_twenty_thirty_monotone
                                 ten_twenty_thirty_passes).
Defined.

(** X6. On a clock that is never set back, the build summary of the
    target workflow, which is logged as soon as the four builds pass and
    whatever happens in the later phases, reports four non-negative build
    durations whose sum does not exceed the reported total. *)
Theorem target_total_bounds_sum :
  forall w : World,
    clock_monotone w -> builds_pass w ->
    exists d1 d2 d3 d4 t : Z,
      reported "  llvm  build : %d s" (events (snd (run_target w))) = [d1]
      /\ reported "  clang build : %d s" (events (snd (run_target w))) = [d2]
      /\ reported "  lld   build : %d s" (events (snd (run_target w))) = [d3]
      /\ reported "  core-image-minimal build : %d s"
                  (events (snd (run_target w))) = [d4]
      /\ reported "  TOTAL BUILD TIME : %d s" (events (snd (run_target w)))
         = [t]
      /\ 0 <= d1 /\ 0 <= d2 /\ 0 <= d3 /\ 0 <= d4
      /\ d1 + d2 + d3 + d4 <= t.
Proof.
  intros w Hmono Hpass.
  destruct (target_summary w Hpass) as (H1 & H2 & H3 & H4 & Ht).
  pose proof (clock_monotone_le w Hmono) as Hle.
  rewrite py_int_elapsed in H1, H2, H3, H4, Ht by (apply Hle; lia).
  do 5 eexists. do 5 (split; [eassumption|]).
  pose proof (Hle 0%nat 1%nat ltac:(lia)) as L01.
  pose proof (Hle 1%nat 2%nat ltac:(lia)) as L12.
  pose proof (Hle 2%nat 3%nat ltac:(lia)) as L23.
  pose proof (Hle 3%nat 4%nat ltac:(lia)) as L34.
  pose proof (Hle 4%nat 5%nat ltac:(lia)) as L45.
  pose proof (Hle 5%nat 6%nat ltac:(lia)) as L56.
  pose proof (Hle 6%nat 7%nat ltac:(lia)) as L67.
  pose proof (Hle 7%nat 8%nat ltac:(lia)) as L78.
  pose proof (Hle 8%nat 9%nat ltac:(lia)) as L89.
  repeat split; try (apply floor_nonneg; lra).
  eapply Z.le_trans;
    [apply Z.add_le_mono_r; apply Z.add_le_mono_r; apply floor_add_le|].
  eapply Z.le_trans; [apply Z.add_le_mono_r; apply floor_add_le|].
  eapply Z.le_trans; [apply floor_add_le|].
  apply Qfloor_resp_le. lra.
Qed.

Lemma calm_world_builds_pass : builds_pass calm_world.
Proof.
  intros recipe _. reflexivity.
Qed.

(** The lld copy fails after the builds: the build summary is there
    all the same. *)
Lemma target_total_bounds_sum_witness :
  exists d1 d2 d3 d4 t : Z,
    reported "  llvm  build : %d s" (events (snd (run_target lld_copy_fails)))
    = [d1]
    /\ reported "  clang build : %d s" (events (snd (run_target lld_copy_fails)))
       = [d2]
    /\ reported "  lld   build : %d s" (events (snd (run_target lld_copy_fails)))
       = [d3]
    /\ reported "  core-image-minimal build : %d s"
                (events (snd (run_target lld_copy_fails))) = [d4]
    /\ reported "  TOTAL BUILD TIME : %d s"
                (events (snd (run_target lld_copy_fails))) = [t]
    /\ 0 <= d1 /\ 0 <= d2 /\ 0 <= d3 /\ 0 <= d4
    /\ d1 + d2 + d3 + d4 <= t.
Proof.
  exact (target_total_bounds_sum lld_copy_fails calm_world_monotone
                                 calm_world_builds_pass).
Defined.

(** * The target workflow as loops over its data *)

Ltac spell_outcome :=
  cbv beta iota zeta delta
    [observed target_outcome build_all target_builds resource_scope
     mount_and_test test_components components lit_timeout copy_failure
     remote_status remote_output mkdir_command mount_command lit_command
     copy_command lit_failure component_name the_vm].

Lemma target_run_observed :
  forall w : World, observed (run_target w) = target_outcome w.
Proof.
  intros w.
  destruct (run_target w) as [r st] eqn:Hrun.
  exec_in Hrun. spell_outcome. cbn [fst snd].
  repeat answer_then ltac:(cbn [fst snd]) Hrun.
  all: finish Hrun.
  all: cbn [events rev app filter observable log snd fst].
  all: reflexivity.
Qed.

(** X7. The observable behaviour of the target test method, whose
    source spells out the four builds and the three per-component blocks
    one after the other, is that of a loop over the builds followed by a
    resource scope holding a loop over the components: same outcome, same
    bitbake invocations, lookups, entries, exits, remote commands with
    their timeouts and ERROR records, in the same order.  The components
    differ only in their commands, the lit timeout and the text of the
    copy failure. *)
Theorem target_run_is_loop_over_components :
  forall w : World, observed (run_target w) = target_outcome w.
Proof.
  exact target_run_observed.
Qed.

(** ** From the observable events back to the whole log *)

Lemma flat_map_observable {A : Type} (f : event -> list A) :
  (forall ev, observable ev = false -> f ev = []) ->
  forall evs, flat_map f (filter observable evs) = flat_map f evs.
Proof.
  intros Hf evs. induction evs as [|ev evs IH]; [reflexivity|].
  cbn [filter flat_map]. destruct (observable ev) eqn:E.
  - cbn [flat_map]. now rewrite IH.
  - rewrite (Hf ev E). exact IH.
Qed.

Lemma filter_observable (g : event -> bool) :
  (forall ev, observable ev = false -> g ev = false) ->
  forall evs, filter g (filter observable evs) = filter g evs.
Proof.
  intros Hg evs. induction evs as [|ev evs IH]; [reflexivity|].
  cbn [filter]. destruct (observable ev) eqn:E.
  - cbn [filter]. now rewrite IH.
  - rewrite (Hg ev E). exact IH.
Qed.

Ltac unobservable :=
  let ev := fresh "ev" in
  intros ev; destruct ev as [[|] ? ?| | | | | |]; cbn;
  first [reflexivity | discriminate].

Lemma remote_commands_observable evs :
  remote_commands (filter observable evs) = remote_commands evs.
Proof. apply flat_map_observable. unobservable. Qed.

Lemma bitbake_calls_observable evs :
  bitbake_calls (filter observable evs) = bitbake_calls evs.
Proof. apply flat_map_observable. unobservable. Qed.

Lemma entered_observable evs :
  entered (filter observable evs) = entered evs.
Proof. apply flat_map_observable. unobservable. Qed.

Lemma exited_observable evs :
  exited (filter observable evs) = exited evs.
Proof. apply flat_map_observable. unobservable. Qed.

Lemma error_records_observable evs :
  error_records (filter observable evs) = error_records evs.
Proof. apply filter_observable. unobservable. Qed.

Lemma scope_events_observable evs :
  filter scope_event (filter observable evs) = filter scope_event evs.
Proof. apply filter_observable. unobservable. Qed.

Lemma remote_only_while_held_observable evs :
  forall held,
    remote_only_while_held held (filter observable evs)
    = remote_only_while_held held evs.
Proof.
  induction evs as [|ev evs IH]; intros held; [reflexivity|].
  destruct ev as [[|] ? ?| | | | | |]; cbn; rewrite ?IH; reflexivity.
Qed.

Lemma existsb_is_bitbake_observable evs :
  existsb is_bitbake (filter observable evs) = existsb is_bitbake evs.
Proof.
  induction evs as [|ev evs IH]; [reflexivity|].
  destruct ev as [[|] ? ?| | | | | |]; cbn; rewrite ?IH; reflexivity.
Qed.

Lemma builds_come_first_observable evs :
  builds_come_first (filter observable evs) = builds_come_first evs.
Proof.
  induction evs as [|ev evs IH]; [reflexivity|].
  destruct ev as [[|] ? ?| | | | | |]; cbn;
    rewrite ?IH, ?existsb_is_bitbake_observable; reflexivity.
Qed.

Lemma In_observable (ev : event) evs :
  observable ev = true ->
  (In ev evs <-> In ev (filter observable evs)).
Proof.
  intros H. rewrite filter_In. tauto.
Qed.

(** What the loop form says about a run. *)
Lemma run_target_outcome (w : World) :
  fst (run_target w) = fst (target_outcome w)
  /\ filter observable (events (snd (run_target w))) = snd (target_outcome w).
Proof.
  rewrite <- (target_run_observed w). split; reflexivity.
Qed.

Ltac to_outcome w :=
  let Hr := fresh "Hr" in
  let Ho := fresh "Ho" in
  destruct (run_target_outcome w) as [Hr Ho];
  try rewrite Hr;
  try rewrite <- (remote_commands_observable (events (snd (run_target w))));
  try rewrite <- (bitbake_calls_observable (events (snd (run_target w))));
  try rewrite <- (entered_observable (events (snd (run_target w))));
  try rewrite <- (exited_observable (events (snd (run_target w))));
  try rewrite <- (error_records_observable (events (snd (run_target w))));
  try rewrite <- (scope_events_observable (events (snd (run_target w))));
  try rewrite <- (remote_only_while_held_observable
                    (events (snd (run_target w))));
  try rewrite <- (builds_come_first_observable (events (snd (run_target w))));
  try rewrite Ho; clear Hr Ho.

Ltac outcome_in H :=
  cbv beta iota zeta delta
    [target_outcome build_all target_builds resource_scope mount_and_test
     test_components components] in H.

Ltac decide_next prune H :=
  lazymatch type of H with
  | ?o = _ =>
      let s := stuck o in
      lazymatch s with
      | Z.eqb ?a ?b => destruct (Z.eqb_spec a b)
      | unfs_server_enter _ => destruct s as [?e|[?nfsport ?mountport]] eqn:?
      | _ => destruct s eqn:?
      end;
      try match goal with
          | K : inl _ = inr _ |- _ => discriminate K
          | K : inr _ = inl _ |- _ => discriminate K
          | K : Some _ = None |- _ => discriminate K
          | K : None = Some _ |- _ => discriminate K
          end;
      try match goal with
          | K : inr _ = inr _ |- _ => injection K; clear K; intros; subst
          | K : inl _ = inl _ |- _ => injection K; clear K; intros; subst
          | K : Some _ = Some _ |- _ => injection K; clear K; intros; subst
          end;
      prune;
      cbv beta iota zeta in H
  end.

Ltac walk_outcome prune w :=
  let r := fresh "r" in
  let evs := fresh "evs" in
  let Hout := fresh "Hout" in
  destruct (target_outcome w) as [r evs] eqn:Hout;
  outcome_in Hout;
  repeat decide_next prune Hout;
  injection Hout as <- <-;
  cbn [fst snd].

Lemma builds_pass_of_each (w : World) :
  bitbake_raises w "llvm" = None ->
  bitbake_raises w "clang" = None ->
  bitbake_raises w "lld" = None ->
  bitbake_raises w "core-image-minimal" = None ->
  builds_pass w.
Proof.
  intros H1 H2 H3 H4 recipe Hin. simpl in Hin.
  destruct Hin as [<- | [<- | [<- | [<- | []]]]]; assumption.
Qed.

(** * Further properties of the target workflow *)

(** X8. The target workflow succeeds exactly when everything it asks
    for succeeds: the four builds pass, TMPDIR resolves, QEMU and the NFS
    export start, and the reachability check, the two mount commands and
    the lit run and result copy of each of the three components exit
    zero. *)
Theorem target_succeeds_iff_everything_succeeds :
  forall w : World,
    fst (run_target w) = Ok tt
    <-> exists tmpdir qemu nfsport mountport,
        mounted w tmpdir qemu nfsport mountport /\ tests_pass w tmpdir.
Proof.
  intros w. to_outcome w. split.
  - walk_outcome idtac w.
    all: intros Hok; try discriminate Hok.
    eexists _, _, _, _. split.
    + repeat split; try eassumption.
      apply builds_pass_of_each; assumption.
    + intros c. destruct c; split; assumption.
  - intros (tmpdir & qemu & nfsport & mountport & Hm & Ht).
    destruct Hm as (Hb & Htmp & Hvm & Hnfs & Hssh & Hmk & Hmo).
    apply builds_pass_each in Hb. destruct Hb as (B1 & B2 & B3 & B4).
    pose proof (Ht lld) as [L1 C1]. pose proof (Ht llvm) as [L2 C2].
    pose proof (Ht clang) as [L3 C3].
    walk_outcome ltac:(try contradiction; try congruence) w.
    reflexivity.
Qed.

(** The calm world passes everything. *)
Lemma calm_world_mounted :
  mounted calm_world "/build/tmp" {| server_ip := "192.168.7.2" |} 3049 3048.
Proof.
  repeat split; vm_compute; reflexivity.
Qed.

Lemma target_succeeds_iff_everything_succeeds_witness :
  fst (run_target calm_world) = Ok tt.
Proof.
  apply (proj2 (target_succeeds_iff_everything_succeeds calm_world)).
  exists "/build/tmp", {| server_ip := "192.168.7.2" |}, 3049, 3048.
  split; [exact calm_world_mounted|].
  intros c. destruct c; split; vm_compute; reflexivity.
Defined.

(** X9. A fully successful target run does, in this order and nothing
    else outside the INFO log: the four builds; the TMPDIR lookup; the
    entry of the VM, then of the export; the reachability check, the
    mount-point creation and the mount; for lld, llvm and clang in turn
    the lit run (with a timeout of 1000 for clang only) and the copy of
    its results; the exit of the export, then of the VM.  It logs no
    ERROR record. *)
Theorem successful_target_run_order :
  forall (w : World) (tmpdir : string) (qemu : qemu_handle)
         (nfsport mountport : Z),
    mounted w tmpdir qemu nfsport mountport ->
    tests_pass w tmpdir ->
    filter observable (events (snd (run_target w))) =
      [Bitbake "llvm"; Bitbake "clang"; Bitbake "lld";
       Bitbake "core-image-minimal";
       GetBBVar "TMPDIR"; Enter the_vm; Enter (unfs_server tmpdir);
       QemuRun "uname" None;
       QemuRun (mkdir_command tmpdir) None;
       QemuRun (mount_command tmpdir qemu nfsport mountport) None;
       QemuRun (lit_command lld tmpdir) None;
       QemuRun (copy_command lld tmpdir) None;
       QemuRun (lit_command llvm tmpdir) None;
       QemuRun (copy_command llvm tmpdir) None;
       QemuRun (lit_command clang tmpdir) (Some 1000);
       QemuRun (copy_command clang tmpdir) None;
       Exit (unfs_server tmpdir); Exit the_vm].
Proof.
  intros w tmpdir qemu nfsport mountport Hm Ht.
  destruct Hm as (Hb & Htmp & Hvm & Hnfs & Hssh & Hmk & Hmo).
  apply builds_pass_each in Hb. destruct Hb as (B1 & B2 & B3 & B4).
  pose proof (Ht lld) as [L1 C1]. pose proof (Ht llvm) as [L2 C2].
  pose proof (Ht clang) as [L3 C3].
  to_outcome w.
  walk_outcome ltac:(try contradiction; try congruence) w.
  reflexivity.
Qed.

Lemma calm_world_tests_pass : tests_pass calm_world "/build/tmp".
Proof.
  intros c. destruct c; split; vm_compute; reflexivity.
Qed.

Lemma successful_target_run_order_witness :
  filter observable (events (snd (run_target calm_world))) =
    [Bitbake "llvm"; Bitbake "clang"; Bitbake "lld";
     Bitbake "core-image-minimal";
     GetBBVar "TMPDIR"; Enter the_vm; Enter (unfs_server "/build/tmp");
     QemuRun "uname" None;
     QemuRun (mkdir_command "/build/tmp") None;
     QemuRun (mount_command "/build/tmp" {| server_ip := "192.168.7.2" |}
                            3049 3048) None;
     QemuRun (lit_command lld "/build/tmp") None;
     QemuRun (copy_command lld "/build/tmp") None;
     QemuRun (lit_command llvm "/build/tmp") None;
     QemuRun (copy_command llvm "/build/tmp") None;
     QemuRun (lit_command clang "/build/tmp") (Some 1000);
     QemuRun (copy_command clang "/build/tmp") None;
     Exit (unfs_server "/build/tmp"); Exit the_vm].
Proof.
  exact (successful_target_run_order
           calm_world "/build/tmp" {| server_ip := "192.168.7.2" |} 3049 3048
           calm_world_mounted calm_world_tests_pass).
Defined.

(** X10. Whatever the collaborators answer, every remote command of
    the target run is issued while both resources are held: after the VM
    and the export were entered and before either is exited. *)
Theorem remote_commands_only_while_resources_held :
  forall w : World,
    remote_only_while_held 0 (events (snd (run_target w))) = true.
Proof.
  intros w. to_outcome w.
  walk_outcome idtac w.
  all: reflexivity.
Qed.

(** X11. The later phases of the target run start exactly when the
    four builds pass: TMPDIR is looked up if and only if they do.
    Whatever happens, bitbake is never invoked once a later phase has
    started, and the builds invoked are the first one to four of the
    list, in source order. *)
Theorem scope_starts_iff_builds_pass :
  forall w : World,
    (In (GetBBVar "TMPDIR") (events (snd (run_target w))) <-> builds_pass w)
    /\ builds_come_first (events (snd (run_target w))) = true
    /\ exists k : nat,
        (1 <= k <= 4)%nat
        /\ bitbake_calls (events (snd (run_target w)))
           = firstn k target_builds.
Proof.
  intros w.
  rewrite (In_observable (GetBBVar "TMPDIR")) by reflexivity.
  to_outcome w.
  walk_outcome idtac w.
  all: split;
    [ split;
      [ intros Hin; first
          [ apply builds_pass_of_each; assumption
          | cbn [In] in Hin;
            repeat (destruct Hin as [Hin | Hin]; [discriminate Hin|]);
            contradiction ]
      | intros Hb; apply builds_pass_each in Hb;
        destruct Hb as (B1 & B2 & B3 & B4);
        first [ congruence
              | cbn [In app]; repeat first [left; reflexivity | right] ] ]
    | split; [reflexivity|] ].
  all: first [ exists 1%nat; split; [lia | reflexivity]
             | exists 2%nat; split; [lia | reflexivity]
             | exists 3%nat; split; [lia | reflexivity]
             | exists 4%nat; split; [lia | reflexivity] ].
Qed.

(** X12. A failure of the TMPDIR lookup or of a resource acquisition
    reaches the caller unchanged.  When the lookup fails nothing is
    entered; when QEMU fails to start the export is not even attempted
    and nothing is exited; when the export fails to start the VM is
    exited; in none of these cases is a remote command issued. *)
Theorem acquisition_failure_propagates :
  forall (w : World) (e : pyexn),
    builds_pass w ->
    (get_bb_var_result w "TMPDIR" = inl e ->
     fst (run_target w) = Raise e
     /\ filter scope_event (events (snd (run_target w)))
        = [GetBBVar "TMPDIR"])
    /\ (forall tmpdir,
           get_bb_var_result w "TMPDIR" = inr tmpdir ->
           runqemu_enter w = inl e ->
           fst (run_target w) = Raise e
           /\ filter scope_event (events (snd (run_target w)))
              = [GetBBVar "TMPDIR"; EnterFailed the_vm])
    /\ (forall tmpdir qemu,
           get_bb_var_result w "TMPDIR" = inr tmpdir ->
           runqemu_enter w = inr qemu ->
           unfs_server_enter w = inl e ->
           fst (run_target w) = Raise e
           /\ filter scope_event (events (snd (run_target w)))
              = [GetBBVar "TMPDIR"; Enter the_vm;
                 EnterFailed (unfs_server tmpdir); Exit the_vm]).
Proof.
  intros w e Hb.
  apply builds_pass_each in Hb. destruct Hb as (B1 & B2 & B3 & B4).
  to_outcome w.
  split; [|split].
  - intros Htmp.
    walk_outcome ltac:(try contradiction; try congruence) w.
    split; reflexivity.
  - intros tmpdir Htmp Hvm.
    walk_outcome ltac:(try contradiction; try congruence) w.
    split; reflexivity.
  - intros tmpdir qemu Htmp Hvm Hnfs.
    walk_outcome ltac:(try contradiction; try congruence) w.
    split; reflexivity.
Qed.

(** The export fails to start: its exception is raised and the VM is
    exited. *)
Lemma acquisition_failure_propagates_witness :
  fst (run_target no_export) = Raise (Exception "unfsd failed to start")
  /\ filter scope_event (events (snd (run_target no_export)))
     = [GetBBVar "TMPDIR"; Enter the_vm;
        EnterFailed (unfs_server "/build/tmp"); Exit the_vm].
Proof.
  exact (proj2 (proj2 (acquisition_failure_propagates
                         no_export (Exception "unfsd failed to start")
                         calm_world_builds_pass))
               "/build/tmp" {| server_ip := "192.168.7.2" |}
               eq_refl eq_refl eq_refl).
Defined.

(** X13. With both resources acquired and the reachability check
    passed, a non-zero exit of the mount-point creation raises
    [Exception] (not an assertion failure) about the mount directory and
    the mount command is not issued; when the creation succeeds, a
    non-zero exit of the mount command raises [Exception] whose message
    carries the [repr] of the captured output, and no lit run is issued.
    In both cases the export, then the VM, are exited and no ERROR record
    is logged. *)
Theorem mount_setup_failures :
  forall (w : World) (tmpdir : string) (qemu : qemu_handle)
         (nfsport mountport : Z),
    builds_pass w ->
    get_bb_var_result w "TMPDIR" = inr tmpdir ->
    runqemu_enter w = inr qemu ->
    unfs_server_enter w = inr (nfsport, mountport) ->
    remote_status w "uname" = 0 ->
    (remote_status w (mkdir_command tmpdir) <> 0 ->
     fst (run_target w) =
       Raise (Exception "Failed to setup NFS mount directory on target")
     /\ remote_commands (events (snd (run_target w)))
        = ["uname"; mkdir_command tmpdir]
     /\ exited (events (snd (run_target w))) = [unfs_server tmpdir; the_vm]
     /\ error_records (events (snd (run_target w))) = [])
    /\ (remote_status w (mkdir_command tmpdir) = 0 ->
        remote_status w (mount_command tmpdir qemu nfsport mountport) <> 0 ->
        fst (run_target w) =
          Raise (Exception
                   ("Failed to setup NFS mount on target ("
                      ++ repr w (remote_output
                                   w (mount_command tmpdir qemu nfsport
                                                    mountport))
                      ++ ")"))
        /\ remote_commands (events (snd (run_target w)))
           = ["uname"; mkdir_command tmpdir;
              mount_command tmpdir qemu nfsport mountport]
        /\ exited (events (snd (run_target w)))
           = [unfs_server tmpdir; the_vm]
        /\ error_records (events (snd (run_target w))) = []).
Proof.
  intros w tmpdir qemu nfsport mountport Hb Htmp Hvm Hnfs Hssh.
  apply builds_pass_each in Hb. destruct Hb as (B1 & B2 & B3 & B4).
  to_outcome w.
  split.
  - intros Hmk.
    walk_outcome ltac:(try contradiction; try congruence) w.
    repeat split.
  - intros Hmk Hmo.
    walk_outcome ltac:(try contradiction; try congruence) w.
    repeat split.
Qed.

(** A world in which only the mount command fails. *)
Lemma mount_setup_failures_witness :
  remote_commands
    (events (snd (run_target
                    (with_remote_answer
                       (mount_command "/build/tmp"
                                      {| server_ip := "192.168.7.2" |}
                                      3049 3048)
                       (32, "mount: permission denied") calm_world))))
  = ["uname"; mkdir_command "/build/tmp";
     mount_command "/build/tmp" {| server_ip := "192.168.7.2" |} 3049 3048].
Proof.
  refine (proj1 (proj2
            (proj2 (mount_setup_failures
                      (with_remote_answer
                         (mount_command "/build/tmp"
                                        {| server_ip := "192.168.7.2" |}
                                        3049 3048)
                         (32, "mount: permission denied") calm_world)
                      "/build/tmp" {| server_ip := "192.168.7.2" |} 3049 3048
                      calm_world_builds_pass eq_refl eq_refl eq_refl _)
                   _ _))).
  - vm_compute. reflexivity.
  - vm_compute. reflexivity.
  - vm_compute. discriminate.
Defined.

(** X14. When the lit run of a component is reached (the mount and the
    components before it succeeded) and exits non-zero, the run raises
    that component's lit failure after logging exactly two ERROR records:
    the failure line naming the component, then the captured output of
    the lit run.  The lit run was issued with the component's timeout and
    is the last remote command; the export, then the VM, are exited. *)
Theorem lit_failure_logs_output :
  forall (w : World) (tmpdir : string) (qemu : qemu_handle)
         (nfsport mountport : Z) (c : component),
    mounted w tmpdir qemu nfsport mountport ->
    reaches w tmpdir c ->
    remote_status w (lit_command c tmpdir) <> 0 ->
    fst (run_target w) = Raise (lit_failure c)
    /\ error_records (events (snd (run_target w)))
       = [Log ERROR ("llvm-lit tests FAILED on target for " ++ component_name c)
              [];
          Log ERROR (remote_output w (lit_command c tmpdir)) []]
    /\ last (remote_commands (events (snd (run_target w)))) EmptyString
       = lit_command c tmpdir
    /\ In (QemuRun (lit_command c tmpdir) (lit_timeout c))
          (events (snd (run_target w)))
    /\ exited (events (snd (run_target w))) = [unfs_server tmpdir; the_vm].
Proof.
  intros w tmpdir qemu nfsport mountport c Hm Hreach Hlit.
  destruct Hm as (Hb & Htmp & Hvm & Hnfs & Hssh & Hmk & Hmo).
  apply builds_pass_each in Hb. destruct Hb as (B1 & B2 & B3 & B4).
  rewrite (In_observable (QemuRun (lit_command c tmpdir) (lit_timeout c)))
    by reflexivity.
  to_outcome w.
  destruct c; unfold reaches in Hreach; cbn [tested_before] in Hreach.
  - walk_outcome ltac:(try contradiction; try congruence) w.
    repeat split. cbn [In app]. repeat first [left; reflexivity | right].
  - pose proof (Hreach lld ltac:(simpl; auto)) as [L1 C1].
    walk_outcome ltac:(try contradiction; try congruence) w.
    repeat split. cbn [In app]. repeat first [left; reflexivity | right].
  - pose proof (Hreach lld ltac:(simpl; auto)) as [L1 C1].
    pose proof (Hreach llvm ltac:(simpl; auto)) as [L2 C2].
    walk_outcome ltac:(try contradiction; try congruence) w.
    repeat split. cbn [In app]. repeat first [left; reflexivity | right].
Qed.

Lemma llvm_lit_fails_mounted :
  mounted llvm_lit_fails "/build/tmp" {| server_ip := "192.168.7.2" |}
          3049 3048.
Proof.
  repeat split; vm_compute; reflexivity.
Qed.

(** The lit run of llvm fails after lld was tested and copied. *)
Lemma lit_failure_logs_output_witness :
  error_records (events (snd (run_target llvm_lit_fails)))
  = [Log ERROR ("llvm-lit tests FAILED on target for " ++ component_name llvm)
         [];
     Log ERROR (remote_output llvm_lit_fails (lit_command llvm "/build/tmp"))
         []].
Proof.
  refine (proj1 (proj2
            (lit_failure_logs_output
               llvm_lit_fails "/build/tmp" {| server_ip := "192.168.7.2" |}
               3049 3048 llvm llvm_lit_fails_mounted _ _))).
  - intros c' Hin. simpl in Hin. destruct Hin as [<- | []].
    split; vm_compute; reflexivity.
  - vm_compute. discriminate.
Defined.

(** X15. When the copy of a component's results is reached (the mount,
    the components before it and its own lit run succeeded) and exits
    non-zero, the run raises the copy failure of that block and logs no
    ERROR record: the output of the failed copy is discarded.  The copy is
    the last remote command; the export, then the VM, are exited. *)
Theorem copy_failure_discards_output :
  forall (w : World) (tmpdir : string) (qemu : qemu_handle)
         (nfsport mountport : Z) (c : component),
    mounted w tmpdir qemu nfsport mountport ->
    reaches w tmpdir c ->
    remote_status w (lit_command c tmpdir) = 0 ->
    remote_status w (copy_command c tmpdir) <> 0 ->
    fst (run_target w) = Raise (copy_failure c)
    /\ error_records (events (snd (run_target w))) = []
    /\ last (remote_commands (events (snd (run_target w)))) EmptyString
       = copy_command c tmpdir
    /\ exited (events (snd (run_target w))) = [unfs_server tmpdir; the_vm].
Proof.
  intros w tmpdir qemu nfsport mountport c Hm Hreach Hlit Hcp.
  destruct Hm as (Hb & Htmp & Hvm & Hnfs & Hssh & Hmk & Hmo).
  apply builds_pass_each in Hb. destruct Hb as (B1 & B2 & B3 & B4).
  to_outcome w.
  destruct c; unfold reaches in Hreach; cbn [tested_before] in Hreach.
  - walk_outcome ltac:(try contradiction; try congruence) w.
    repeat split.
  - pose proof (Hreach lld ltac:(simpl; auto)) as [L1 C1].
    walk_outcome ltac:(try contradiction; try congruence) w.
    repeat split.
  - pose proof (Hreach lld ltac:(simpl; auto)) as [L1 C1].
    pose proof (Hreach llvm ltac:(simpl; auto)) as [L2 C2].
    walk_outcome ltac:(try contradiction; try congruence) w.
    repeat split.
Qed.

Lemma lld_copy_fails_mounted :
  mounted lld_copy_fails "/build/tmp" {| server_ip := "192.168.7.2" |}
          3049 3048.
Proof.
  repeat split; vm_compute; reflexivity.
Qed.

(** The copy of the lld results fails: nothing is logged at ERROR
    level. *)
Lemma copy_failure_discards_output_witness :
  error_records (events (snd (run_target lld_copy_fails))) = [].
Proof.
  refine (proj1 (proj2
            (copy_failure_discards_output
               lld_copy_fails "/build/tmp" {| server_ip := "192.168.7.2" |}
               3049 3048 lld lld_copy_fails_mounted _ _ _))).
  - intros c' [].
  - vm_compute. reflexivity.
  - vm_compute. discriminate.
Defined.

Lemma ends_with (evs tail : list event) (n : nat) :
  skipn n evs = tail -> exists pre, evs = (pre ++ tail)%list.
Proof.
  intros H. exists (firstn n evs). rewrite <- H. symmetry. apply firstn_skipn.
Qed.

(** X16. A fully successful target run ends its log, before the two
    exits, with the completion line followed by one INFO record holding
    the captured output of the clang lit run: the outputs of the copies
    are discarded, so the variable logged last still holds the output of
    the last lit run. *)
Theorem success_logs_clang_output_last :
  forall (w : World) (tmpdir : string) (qemu : qemu_handle)
         (nfsport mountport : Z),
    mounted w tmpdir qemu nfsport mountport ->
    tests_pass w tmpdir ->
    exists pre,
      events (snd (run_target w)) =
        (pre ++ [Log INFO "llvm-lit tests completed successfully on target" [];
                 Log INFO (remote_output w (lit_command clang tmpdir)) [];
                 Exit (unfs_server tmpdir); Exit the_vm])%list.
Proof.
  intros w tmpdir qemu nfsport mountport Hm Ht.
  destruct Hm as (Hb & Htmp & Hvm & Hnfs & Hssh & Hmk & Hmo).
  apply builds_pass_each in Hb. destruct Hb as (B1 & B2 & B3 & B4).
  pose proof (Ht lld) as [L1 C1]. pose proof (Ht llvm) as [L2 C2].
  pose proof (Ht clang) as [L3 C3]. clear Ht.
  destruct (run_target w) as [r st] eqn:Hrun.
  exec_in Hrun. unfold remote_output. spell_commands.
  repeat answer_then known_status Hrun.
  finish Hrun. cbn [events rev app log snd fst].
  match goal with
  | |- exists pre, ?evs = _ =>
      let n := eval cbv in (length evs - 4)%nat in
      apply (ends_with evs _ n)
  end.
  reflexivity.
Qed.

Lemma success_logs_clang_output_last_witness :
  exists pre,
    events (snd (run_target calm_world)) =
      (pre ++ [Log INFO "llvm-lit tests completed successfully on target" [];
               Log INFO (remote_output calm_world
                                       (lit_command clang "/build/tmp")) [];
               Exit (unfs_server "/build/tmp"); Exit the_vm])%list.
Proof.
  exact (success_logs_clang_output_last
           calm_world "/build/tmp" {| server_ip := "192.168.7.2" |} 3049 3048
           calm_world_mounted calm_world_tests_pass).
Defined.
